(** * Outline parser and layout heuristic of the slide generator

    A shallow embedding of [src/outline_parser.py] (class [OutlineParser]) and
    of the layout part of [src/ai_planner.py] ([SlidePlanner._fallback_plan]),
    with the properties the specification states about them.

    Python's [str] is a sequence of Unicode code points; it is modelled as a
    list of code points in [N].  A slide is a Python [dict] with a fixed set
    of possible keys; it is modelled as a record whose optional keys are
    [option] fields, and a subscript on a missing key is a [KeyError]. *)

From Stdlib Require Import List NArith ZArith Bool Lia Ascii String.
From Stdlib Require Import Sorting.Permutation Sorting.Sorted.
Import ListNotations.

(** ** Python strings *)

Module PyStr.

Local Open Scope N_scope.

Definition pystr := list N.

(** An ASCII literal as a Python string. *)
Definition py (s : string) : pystr :=
  List.map N_of_ascii (list_ascii_of_string s).

(** ['\n'] *)
Definition nl : pystr := [10].

(** Truth value of a string: [not s] holds for the empty string only. *)
Definition is_empty (s : pystr) : bool :=
  match s with [] => true | _ :: _ => false end.

(** [c.isspace()]: the white space table of CPython
    ([_PyUnicode_IsWhitespace]). *)
Definition isspace (c : N) : bool :=
  ((9 <=? c) && (c <=? 13)) || ((28 <=? c) && (c <=? 32))
  || (c =? 133) || (c =? 160) || (c =? 5760)
  || ((8192 <=? c) && (c <=? 8202))
  || (c =? 8232) || (c =? 8233) || (c =? 8239) || (c =? 8287) || (c =? 12288).

(** [c.isdigit()]: the code points whose Unicode numeric type is Decimal or
    Digit (Unicode 14, the table of CPython 3.11), as inclusive ranges. *)
Definition digit_ranges : list (N * N) :=
  [ (48, 57); (178, 179); (185, 185); (1632, 1641); (1776, 1785);
    (1984, 1993); (2406, 2415); (2534, 2543); (2662, 2671); (2790, 2799);
    (2918, 2927); (3046, 3055); (3174, 3183); (3302, 3311); (3430, 3439);
    (3558, 3567); (3664, 3673); (3792, 3801); (3872, 3881); (4160, 4169);
    (4240, 4249); (4969, 4977); (6112, 6121); (6160, 6169); (6470, 6479);
    (6608, 6618); (6784, 6793); (6800, 6809); (6992, 7001); (7088, 7097);
    (7232, 7241); (7248, 7257); (8304, 8304); (8308, 8313); (8320, 8329);
    (9312, 9320); (9332, 9340); (9352, 9360); (9450, 9450); (9461, 9469);
    (9471, 9471); (10102, 10110); (10112, 10120); (10122, 10130);
    (42528, 42537); (43216, 43225); (43264, 43273); (43472, 43481);
    (43504, 43513); (43600, 43609); (44016, 44025); (65296, 65305);
    (66720, 66729); (68160, 68163); (68912, 68921); (69216, 69224);
    (69714, 69722); (69734, 69743); (69872, 69881); (69942, 69951);
    (70096, 70105); (70384, 70393); (70736, 70745); (70864, 70873);
    (71248, 71257); (71360, 71369); (71472, 71481); (71904, 71913);
    (72016, 72025); (72784, 72793); (73040, 73049); (73120, 73129);
    (92768, 92777); (92864, 92873); (93008, 93017); (120782, 120831);
    (123200, 123209); (123632, 123641); (125264, 125273); (127232, 127242);
    (130032, 130041) ].

Definition isdigit (c : N) : bool :=
  existsb (fun r => (fst r <=? c) && (c <=? snd r)) digit_ranges.

(** [s.lstrip()] *)
Fixpoint lstrip (s : pystr) : pystr :=
  match s with
  | [] => []
  | c :: s' => if isspace c then lstrip s' else s
  end.

(** [s.rstrip()]: the longest prefix of [s] that does not end in white
    space. *)
Fixpoint rstrip (s : pystr) : pystr :=
  match s with
  | [] => []
  | c :: s' =>
      match rstrip s' with
      | [] => if isspace c then [] else [c]
      | r => c :: r
      end
  end.

(** [s.strip()] *)
Definition strip (s : pystr) : pystr := lstrip (rstrip s).

(** [s.lstrip(chars)]: drops leading code points that occur in [chars]. *)
Fixpoint lstrip_chars (chars s : pystr) : pystr :=
  match s with
  | [] => []
  | c :: s' => if existsb (N.eqb c) chars then lstrip_chars chars s' else s
  end.

(** [s.startswith(prefix)] *)
Fixpoint startswith (s prefix : pystr) : bool :=
  match prefix, s with
  | [], _ => true
  | _ :: _, [] => false
  | p :: prefix', c :: s' => (c =? p) && startswith s' prefix'
  end.

(** [needle in hay] *)
Fixpoint contains (needle hay : pystr) : bool :=
  startswith hay needle
  || match hay with
     | [] => false
     | _ :: hay' => contains needle hay'
     end.

(** [s.split(sep)] for a separator of one code point. *)
Fixpoint split_on (sep : N) (s : pystr) : list pystr :=
  match s with
  | [] => [[]]
  | c :: s' =>
      if c =? sep then [] :: split_on sep s'
      else match split_on sep s' with
           | [] => [[c]]
           | w :: ws => (c :: w) :: ws
           end
  end.

(** [sep.join(parts)] *)
Fixpoint join (sep : pystr) (parts : list pystr) : pystr :=
  match parts with
  | [] => []
  | [p] => p
  | p :: rest => p ++ sep ++ join sep rest
  end.

(** [s.replace(old, new)] for a non-empty [old]: occurrences are found from
    the left and do not overlap; [skip] counts the code points of the
    occurrence being replaced that are still to be passed over. *)
Fixpoint replace_from (old new : pystr) (skip : nat) (s : pystr) : pystr :=
  match s with
  | [] => []
  | c :: s' =>
      match skip with
      | S k => replace_from old new k s'
      | O =>
          if startswith s old
          then new ++ replace_from old new (Nat.pred (List.length old)) s'
          else c :: replace_from old new O s'
      end
  end.

Definition replace (old new s : pystr) : pystr := replace_from old new O s.

(** [s.lower()].  The ASCII capitals, U+0130 and U+212A are the only code
    points whose lower case contains an ASCII code point; every other code
    point is left as it is, which gives the same answer as Python wherever
    the result is searched for an ASCII word. *)
Definition lower_cp (c : N) : pystr :=
  if (65 <=? c) && (c <=? 90) then [c + 32]
  else if c =? 304 then [105; 775]
  else if c =? 8490 then [107]
  else [c].

Definition lower (s : pystr) : pystr := flat_map lower_cp s.

End PyStr.

Import PyStr.

(** ** Exceptions *)

Inductive error : Type :=
| KeyError (key : string)
| ValueError.

Inductive result (A : Type) : Type :=
| Ok (a : A)
| Raise (e : error).

Arguments Ok {A} a.
Arguments Raise {A} e.

Definition bind {A B : Type} (m : result A) (k : A -> result B) : result B :=
  match m with
  | Ok a => k a
  | Raise e => Raise e
  end.

Notation "x <- m ;; k" := (bind m (fun x => k))
  (at level 61, m at next level, right associativity).

(** A [for] loop whose body may raise. *)
Fixpoint for_each {S A : Type} (body : S -> A -> result S) (l : list A) (s : S)
  : result S :=
  match l with
  | [] => Ok s
  | a :: l' => s' <- body s a ;; for_each body l' s'
  end.

(** ** Slide records *)

(** The values of the ['type'] key. *)
Inductive slide_type : Type := T_title | T_section | T_content.

(** The values of the ['layout'] key set by the planner. *)
Inductive layout : Type := big_number | bullets | two_column.

(** The values of the ['gradient'] key set by the planner. *)
Inductive gradient : Type := ultraviolet | coraldawn.

Definition slide_type_eqb (a b : slide_type) : bool :=
  match a, b with
  | T_title, T_title | T_section, T_section | T_content, T_content => true
  | _, _ => false
  end.

(** A slide dict.  Every dict the code builds has ['type'] and ['title'];
    the other keys may be absent. *)
Record slide : Type := mkSlide {
  s_type : slide_type;
  s_title : pystr;
  s_subtitle : option pystr;
  s_content : option (list pystr);
  s_layout : option layout;
  s_gradient : option gradient
}.

(** [d['subtitle']] and [d['content']] *)
Definition get_subtitle (d : slide) : result pystr :=
  match s_subtitle d with
  | Some v => Ok v
  | None => Raise (KeyError "subtitle")
  end.

Definition get_content (d : slide) : result (list pystr) :=
  match s_content d with
  | Some v => Ok v
  | None => Raise (KeyError "content")
  end.

(** [d[key] = v] *)
Definition set_type (v : slide_type) (d : slide) : slide :=
  mkSlide v (s_title d) (s_subtitle d) (s_content d) (s_layout d) (s_gradient d).

Definition set_subtitle (v : pystr) (d : slide) : slide :=
  mkSlide (s_type d) (s_title d) (Some v) (s_content d) (s_layout d) (s_gradient d).

Definition set_content (v : list pystr) (d : slide) : slide :=
  mkSlide (s_type d) (s_title d) (s_subtitle d) (Some v) (s_layout d) (s_gradient d).

Definition set_layout (v : layout) (d : slide) : slide :=
  mkSlide (s_type d) (s_title d) (s_subtitle d) (s_content d) (Some v) (s_gradient d).

Definition set_gradient (v : gradient) (d : slide) : slide :=
  mkSlide (s_type d) (s_title d) (s_subtitle d) (s_content d) (s_layout d) (Some v).

(** The three dict literals of [parse_text] and the one of
    [validate_structure]. *)
Definition title_slide (t : pystr) : slide :=
  mkSlide T_title t (Some []) (Some []) None None.

Definition section_slide (t : pystr) : slide :=
  mkSlide T_section t None (Some []) None None.

Definition default_content_slide : slide :=
  mkSlide T_content (py "Content") None (Some []) None None.

Definition default_title_slide : slide :=
  mkSlide T_title (py "Presentation") (Some []) None None None.

(** ** [OutlineParser] *)

(** The object: its only attribute is [self.slides]. *)
Record OutlineParser : Type := mkParser { slides : list slide }.

(** [OutlineParser()] *)
Definition new_parser : OutlineParser := mkParser [].

(** The bullet glyph literal of [parse_text], as the source file has it:
    U+00E2 U+20AC U+00A2. *)
Definition bullet_glyph : pystr := [226; 8364; 162]%N.

(** U+2022 BULLET, the glyph [ai_planner.analyze_content_depth] tests for. *)
Definition unicode_bullet : pystr := [8226]%N.

(** The conditions of the [if]/[elif] chain of [parse_text]. *)
Definition is_title_line (line : pystr) : bool :=
  startswith line (py "# ") || startswith line (py "## ").

Definition is_section_line (line : pystr) : bool :=
  startswith line (py "---")
  || (startswith line (py "## ") && contains (py "section") (lower line)).

Definition is_bullet_line (line : pystr) : bool :=
  startswith line (py "-") || startswith line bullet_glyph.

(** The state of the loop: [self.slides] and the local [current_slide]. *)
Definition loop_state : Type := (list slide * option slide)%type.

(** [if current_slide: self.slides.append(current_slide)] *)
Definition append_current (st : loop_state) : list slide :=
  match snd st with
  | Some cur => fst st ++ [cur]
  | None => fst st
  end.

(** [line.lstrip('-...').strip()] with the glyph literal in the set. *)
Definition bullet_text (line : pystr) : pystr :=
  strip (lstrip_chars (py "-" ++ bullet_glyph) line).

(** The body of the loop of [parse_text], for one element of [lines]. *)
Definition process_line (st : loop_state) (raw : pystr) : result loop_state :=
  let line := strip raw in
  if is_empty line then Ok st
  else if is_title_line line then
    let title := strip (lstrip_chars (py "#") line) in
    Ok (append_current st, Some (title_slide title))
  else if is_section_line line then
    let section_title :=
      strip (replace (py "Section:") [] (strip (lstrip_chars (py "#") line))) in
    Ok (append_current st, Some (section_slide section_title))
  else if is_bullet_line line then
    let cur :=
      match snd st with
      | None => default_content_slide
      | Some c => c
      end in
    let bullet := bullet_text line in
    if slide_type_eqb (s_type cur) T_content then
      items <- get_content cur ;;
      Ok (fst st, Some (set_content (items ++ [bullet]) cur))
    else
      Ok (fst st, Some (set_content [bullet] (set_type T_content cur)))
  else
    match snd st with
    | None => Ok st
    | Some cur =>
        if slide_type_eqb (s_type cur) T_title then
          sub <- get_subtitle cur ;;
          if is_empty sub then Ok (fst st, Some (set_subtitle line cur))
          else Ok st
        else if slide_type_eqb (s_type cur) T_content then
          items <- get_content cur ;;
          Ok (fst st, Some (set_content (items ++ [line]) cur))
        else Ok st
    end.

(** [self.parse_text(text)]: the value returned is [self.slides] itself. *)
Definition parse_text (self : OutlineParser) (text : pystr)
  : result (list slide * OutlineParser) :=
  let lines := split_on 10 (strip text) in
  st <- for_each process_line lines (slides self, None) ;;
  let all := append_current st in
  Ok (all, mkParser all).

(** [self.validate_structure()] *)
Definition validate_structure (self : OutlineParser) : bool * OutlineParser :=
  match slides self with
  | [] => (false, self)
  | first :: _ =>
      if negb (slide_type_eqb (s_type first) T_title)
      then (true, mkParser (default_title_slide :: slides self))
      else (true, self)
  end.

(** [self.get_slide_count()] *)
Definition get_slide_count (self : OutlineParser) : Z :=
  Z.of_nat (List.length (slides self)).

(** [self.get_slide(index)]; [None] is Python's [None]. *)
Definition get_slide (self : OutlineParser) (index : Z) : option slide :=
  if ((0 <=? index) && (index <? Z.of_nat (List.length (slides self))))%Z
  then nth_error (slides self) (Z.to_nat index)
  else None.

(** [range(start, stop, step)] as the list of its values. *)
Definition py_range (start stop step : Z) : result (list Z) :=
  if (step =? 0)%Z then Raise ValueError
  else
    let count :=
      if (0 <? step)%Z
      then (if (start <? stop)%Z then (stop - start - 1) / step + 1 else 0)%Z
      else (if (stop <? start)%Z then (start - stop - 1) / (- step) + 1 else 0)%Z in
    Ok (List.map (fun k => (start + Z.of_nat k * step)%Z) (seq 0 (Z.to_nat count))).

(** [l[lo:hi]] *)
Definition py_slice {A : Type} (l : list A) (lo hi : Z) : list A :=
  let n := Z.of_nat (List.length l) in
  let clamp i := (if i <? 0 then Z.max 0 (i + n) else Z.min i n)%Z in
  let lo' := clamp lo in
  let hi' := clamp hi in
  firstn (Z.to_nat (hi' - lo')) (skipn (Z.to_nat lo') l).

(** The dicts of [split_for_agents]. *)
Record batch : Type := mkBatch {
  batch_id : Z;
  start_index : Z;
  batch_slides : list slide
}.

(** [self.split_for_agents(batch_size)] *)
Definition split_for_agents (self : OutlineParser) (batch_size : Z)
  : result (list batch) :=
  idx <- py_range 0 (Z.of_nat (List.length (slides self))) batch_size ;;
  Ok (List.map
        (fun i => mkBatch (i / batch_size)%Z i
                          (py_slice (slides self) i (i + batch_size)%Z))
        idx).

(** ** The layout heuristic of [SlidePlanner._fallback_plan] *)

(** [slide.get('content', [])] *)
Definition content_or_empty (d : slide) : list pystr :=
  match s_content d with
  | Some v => v
  | None => []
  end.

(** The body of the loop of [_fallback_plan]: the enhanced copy of one
    slide. *)
Definition enhance (d : slide) : slide :=
  let enhanced := d in
  let enhanced :=
    if slide_type_eqb (s_type d) T_content then
      let content_str := join (py " ") (content_or_empty d) in
      let enhanced :=
        if existsb isdigit content_str
           && (Nat.leb (List.length (content_or_empty d)) 3)
        then
          if contains (py "%") content_str || contains (py "$") content_str
             || contains (py "M") content_str || contains (py "K") content_str
          then set_layout big_number enhanced
          else set_layout bullets enhanced
        else set_layout bullets enhanced in
      if Nat.ltb 5 (List.length (content_or_empty d))
      then set_layout two_column enhanced
      else enhanced
    else enhanced in
  if slide_type_eqb (s_type d) T_title then set_gradient ultraviolet enhanced
  else if slide_type_eqb (s_type d) T_section then set_gradient coraldawn enhanced
  else enhanced.

(** [self._fallback_plan(outline_text)]: a fresh parser, then the loop. *)
Definition _fallback_plan (outline_text : pystr) : result (list slide) :=
  r <- parse_text new_parser outline_text ;;
  Ok (List.map enhance (fst r)).

(** ** Definitions that follow the words of the specification *)

(** The rule order of the layout heuristic as the specification lists it,
    on the bullet items alone. *)
Definition has_code_point (c : N) (items : list pystr) : bool :=
  existsb (N.eqb c) (List.concat items).

Definition layout_rule (items : list pystr) : layout :=
  if Nat.ltb 5 (List.length items) then two_column
  else if Nat.leb (List.length items) 3
          && existsb isdigit (List.concat items)
          && (has_code_point 37 items || has_code_point 36 items
              || has_code_point 77 items || has_code_point 75 items)
  then big_number
  else bullets.

(** The bullet items of a record written back as bullet lines, one
    ["- item"] line each. *)
Definition bullet_lines (items : list pystr) : pystr :=
  join nl (List.map (fun item => py "- " ++ item) items).

(** ** Invariants of the loop of [parse_text] *)

(** A string as [strip] leaves it: no white space at either end, and, as a
    line of the outline, no line break inside. *)
Definition clean (s : pystr) : Prop :=
  lstrip s = s /\ rstrip s = s /\ ~ In 10%N s.

(** The non-blank lines of a text, stripped: what the loop of [parse_text]
    acts on. *)
Definition effective (lines : list pystr) : list pystr :=
  filter (fun l => negb (is_empty l)) (List.map strip lines).

(** The keys the loop reads are present in the current record. *)
Definition has_keys (d : slide) : Prop :=
  match s_type d with
  | T_title => exists v, s_subtitle d = Some v
  | T_content => exists v, s_content d = Some v
  | T_section => True
  end.

Definition current_has_keys (cur : option slide) : Prop :=
  match cur with
  | None => True
  | Some d => has_keys d
  end.

(** The loop state with [pre] in front of [self.slides]. *)
Definition shift (pre : list slide) (st : loop_state) : loop_state :=
  (pre ++ fst st, snd st).

(** The bullet items of a record are clean, and a content record has at
    least one. *)
Definition good_slide (d : slide) : Prop :=
  (forall items, s_content d = Some items -> Forall clean items) /\
  (s_type d = T_content -> exists x xs, s_content d = Some (x :: xs)).

Definition good_state (st : loop_state) : Prop :=
  Forall good_slide (fst st) /\
  match snd st with
  | None => True
  | Some d => good_slide d
  end.

(** The number of batches: [len(range(0, n, batch_size))]. *)
Definition batch_count (n batch_size : Z) : nat :=
  Z.to_nat (if (0 <? n)%Z then (n - 1) / batch_size + 1 else 0)%Z.

(** ** Scenarios *)

(** The outline of the end-to-end scenario. *)
Definition e2e_outline : pystr :=
  py "# Q1 Review" ++ nl ++ py "Growth story" ++ nl ++ nl
  ++ py "- Revenue up 15%" ++ nl ++ py "- Costs down 8%".

Definition e2e_items : list pystr :=
  [py "Revenue up 15%"; py "Costs down 8%"].

(** What the scenario says [parse_text] returns: a title record followed by
    a default content record. *)
Definition e2e_two_records (out : list slide) : Prop :=
  exists d1 d2,
    out = [d1; d2] /\
    s_type d1 = T_title /\ s_title d1 = py "Q1 Review" /\
    s_subtitle d1 = Some (py "Growth story") /\
    s_type d2 = T_content /\ s_title d2 = py "Content" /\
    s_content d2 = Some e2e_items.

(** What [parse_text] returns on it: the title record, coerced. *)
Definition e2e_record : slide :=
  mkSlide T_content (py "Q1 Review") (Some (py "Growth story"))
    (Some e2e_items) None None.

(** A heading that holds the section keyword and label. *)
Definition section_heading : pystr := py "## Section: Overview".

(** Three lines, one for each bullet marker: hyphen, U+2022, and the glyph
    literal of the source. *)
Definition three_markers : pystr :=
  py "- a" ++ nl ++ unicode_bullet ++ py " b" ++ nl ++ bullet_glyph ++ py " c".

(** ** [SlidePlanner.analyze_content_depth] *)

(** The dict the method returns. *)
Record content_depth : Type := mkDepth {
  total_lines : Z;
  bullet_count : Z;
  needs_expansion : bool;
  estimated_slides : Z
}.

(** The test of the list comprehension that collects [bullets]. *)
Definition counts_as_bullet (l : pystr) : bool :=
  startswith (strip l) (py "-") || startswith (strip l) unicode_bullet.

Definition analyze_content_depth (outline_text : pystr) : content_depth :=
  let lines := split_on 10 (strip outline_text) in
  let bullets := filter counts_as_bullet lines in
  mkDepth (Z.of_nat (List.length lines))
          (Z.of_nat (List.length bullets))
          (Z.of_nat (List.length bullets) <? 10)%Z
          (Z.max 3 (Z.of_nat (List.length bullets) / 4 + 1))%Z.

(** ** [SlideAgentCoordinator.collect_results] *)

(** A job result dict, with the two keys the method reads; the generated
    slide is whatever the agent returned. *)
Record job_result (V : Type) : Type := mkJobResult {
  r_slide_index : option Z;
  r_generated_slide : option V
}.

Arguments mkJobResult {V} _ _.
Arguments r_slide_index {V} _.
Arguments r_generated_slide {V} _.

(** [sorted(job_results, key=lambda x: x['slide_index'])]: the key of every
    element is computed first, in order, and may raise; the sort is stable. *)
Fixpoint sort_keys {V : Type} (l : list (job_result V))
  : result (list (Z * job_result V)) :=
  match l with
  | [] => Ok []
  | r :: l' =>
      match r_slide_index r with
      | None => Raise (KeyError "slide_index")
      | Some k => rest <- sort_keys l' ;; Ok ((k, r) :: rest)
      end
  end.

Fixpoint insert_keyed {A : Type} (x : Z * A) (l : list (Z * A)) : list (Z * A) :=
  match l with
  | [] => [x]
  | y :: l' => if (fst x <=? fst y)%Z then x :: l else y :: insert_keyed x l'
  end.

Definition stable_sort {A : Type} (l : list (Z * A)) : list (Z * A) :=
  fold_right insert_keyed [] l.

(** [if 'generated_slide' in result: slides.append(result['generated_slide'])] *)
Definition generated {V : Type} (r : job_result V) : list V :=
  match r_generated_slide r with
  | Some s => [s]
  | None => []
  end.

Definition collect_results {V : Type} (job_results : list (job_result V))
  : result (list V) :=
  keyed <- sort_keys job_results ;;
  let sorted_results := List.map snd (stable_sort keyed) in
  Ok (flat_map generated sorted_results).

(** ** Further invariants of the parser *)

(** The lines that start a record, by the branch they take. *)
Definition starts_heading_record (line : pystr) : bool :=
  is_title_line line || is_section_line line.

Definition starts_record (line : pystr) : bool :=
  starts_heading_record line || is_bullet_line line.

(** A raw line that the loop sends to the bullet branch. *)
Definition reaches_bullet_branch (raw : pystr) : bool :=
  negb (starts_heading_record (strip raw)) && is_bullet_line (strip raw).

(** The keys of a record as [parse_text] leaves them: no layout, no
    gradient, no items unless it is a content record, a subtitle only if it
    came from a heading. *)
Definition parser_shape (d : slide) : Prop :=
  s_layout d = None /\ s_gradient d = None /\
  (s_type d <> T_content -> s_content d = Some []) /\
  (s_type d = T_title -> exists v, s_subtitle d = Some v) /\
  (s_type d = T_section -> s_subtitle d = None).

(** Title and subtitle are clean. *)
Definition tidy_heading (d : slide) : Prop :=
  clean (s_title d) /\ (forall v, s_subtitle d = Some v -> clean v).

(** A section record keeps the dashes of its divider line. *)
Definition section_title_dashed (d : slide) : Prop :=
  s_type d = T_section -> startswith (s_title d) (py "---") = true.

(** What [_fallback_plan] makes of a parsed record. *)
Definition planned_from (d e : slide) : Prop :=
  s_type e = s_type d /\ s_title e = s_title d /\
  s_subtitle e = s_subtitle d /\ s_content e = s_content d /\
  match s_type d with
  | T_content =>
      s_layout e = Some (layout_rule (content_or_empty d)) /\ s_gradient e = None
  | T_title => s_layout e = None /\ s_gradient e = Some ultraviolet
  | T_section => s_layout e = None /\ s_gradient e = Some coraldawn
  end.

(** [P] holds of every record of the loop state. *)
Definition state_keeps (P : slide -> Prop) (st : loop_state) : Prop :=
  Forall P (fst st) /\
  match snd st with
  | None => True
  | Some d => P d
  end.

(** The number of heading and divider lines among [lines]. *)
Definition heading_count (lines : list pystr) : nat :=
  List.length (filter (fun l => starts_heading_record (strip l)) lines).

(** The order [sorted] puts job results in: by slide index. *)
Definition index_le {V : Type} (a b : job_result V) : Prop :=
  match r_slide_index a, r_slide_index b with
  | Some x, Some y => (x <= y)%Z
  | _, _ => False
  end.

Definition key_le {A : Type} (a b : Z * A) : Prop := (fst a <= fst b)%Z.

(** A result paired with the key computed from it. *)
Definition keyed_right {V : Type} (kr : Z * job_result V) : Prop :=
  r_slide_index (snd kr) = Some (fst kr).

(** Three job results, out of order, one of them without a generated
    slide. *)
Definition sample_results : list (job_result slide) :=
  [mkJobResult (Some 2%Z) (Some e2e_record);
   mkJobResult (Some 0%Z) None;
   mkJobResult (Some 1%Z) (Some default_title_slide)].

(** * Properties *)

(** ** Strings *)

Section StringFacts.

Local Open Scope N_scope.

Lemma lstrip_idem (s : pystr) : lstrip (lstrip s) = lstrip s.
Proof.
  induction s as [|c s IH]; simpl; auto.
  destruct (isspace c) eqn:E; auto.
  simpl. now rewrite E.
Qed.

Lemma rstrip_idem (s : pystr) : rstrip (rstrip s) = rstrip s.
Proof.
  induction s as [|c s IH]; simpl; auto.
  destruct (rstrip s) as [|a r] eqn:R.
  - destruct (isspace c) eqn:E; simpl; auto. now rewrite E.
  - change (rstrip (c :: a :: r)) with
      (match rstrip (a :: r) with
       | [] => if isspace c then [] else [c]
       | x :: y => c :: x :: y
       end).
    now rewrite IH.
Qed.

Lemma rstrip_lstrip_fixed (s : pystr) :
  rstrip s = s -> rstrip (lstrip s) = lstrip s.
Proof.
  induction s as [|c s IH]; simpl; auto.
  destruct (rstrip s) as [|a r] eqn:R.
  - destruct (isspace c) eqn:E; try discriminate.
    intros H. injection H as <-. simpl. now rewrite E.
  - intros H. injection H as H. destruct (isspace c) eqn:E.
    + auto.
    + simpl. now rewrite R, H.
Qed.

Lemma lstrip_strip (s : pystr) : lstrip (strip s) = strip s.
Proof. apply lstrip_idem. Qed.

Lemma rstrip_strip (s : pystr) : rstrip (strip s) = strip s.
Proof. apply rstrip_lstrip_fixed, rstrip_idem. Qed.

Lemma strip_idem (s : pystr) : strip (strip s) = strip s.
Proof.
  unfold strip at 1. now rewrite rstrip_strip, lstrip_strip.
Qed.

Lemma strip_fixed (s : pystr) : lstrip s = s -> rstrip s = s -> strip s = s.
Proof. intros L R. unfold strip. now rewrite R. Qed.

Lemma In_lstrip (x : N) (s : pystr) : In x (lstrip s) -> In x s.
Proof.
  induction s as [|c s IH]; simpl; auto.
  destruct (isspace c); simpl; auto.
Qed.

Lemma In_rstrip (x : N) (s : pystr) : In x (rstrip s) -> In x s.
Proof.
  induction s as [|c s IH]; simpl; auto.
  destruct (rstrip s) as [|a r].
  - destruct (isspace c); simpl; tauto.
  - intros [H|H]; auto.
Qed.

Lemma In_strip (x : N) (s : pystr) : In x (strip s) -> In x s.
Proof. intros H. now apply In_rstrip, In_lstrip. Qed.

Lemma In_lstrip_chars (x : N) (chars s : pystr) :
  In x (lstrip_chars chars s) -> In x s.
Proof.
  induction s as [|c s IH]; simpl; auto.
  destruct (existsb (N.eqb c) chars); simpl; auto.
Qed.

Lemma clean_strip (s : pystr) : ~ In 10 s -> clean (strip s).
Proof.
  intros H. repeat split.
  - apply lstrip_strip.
  - apply rstrip_strip.
  - intros H'. now apply H, In_strip.
Qed.

Lemma split_on_cons (sep : N) (s : pystr) :
  exists w ws, split_on sep s = w :: ws.
Proof.
  induction s as [|c s (w & ws & IH)]; simpl; eauto.
  destruct (c =? sep); rewrite ?IH; eauto.
Qed.

Lemma split_on_no_sep (sep : N) (s l : pystr) :
  In l (split_on sep s) -> ~ In sep l.
Proof.
  revert l. induction s as [|c s IH]; simpl; intros l.
  - intros [<-|[]]. auto.
  - destruct (N.eqb_spec c sep) as [->|Hne].
    + intros [<-|H]; auto.
    + destruct (split_on sep s) as [|w ws].
      * intros [<-|[]] [H|[]]. congruence.
      * intros [<-|H]; [|apply IH; now right].
        intros [H|H]; [congruence|]. apply (IH w); auto. now left.
Qed.

Lemma split_on_no_sep_id (sep : N) (s : pystr) :
  ~ In sep s -> split_on sep s = [s].
Proof.
  induction s as [|c s IH]; simpl; auto.
  intros H. destruct (N.eqb_spec c sep) as [->|Hne]; [tauto|].
  rewrite IH; tauto.
Qed.

Lemma split_on_app (sep : N) (a b : pystr) :
  ~ In sep a -> split_on sep (a ++ sep :: b) = a :: split_on sep b.
Proof.
  induction a as [|c a IH]; simpl; intros H.
  - now rewrite N.eqb_refl.
  - destruct (N.eqb_spec c sep) as [->|Hne]; [tauto|].
    rewrite IH; tauto.
Qed.

Lemma split_on_join (lines : list pystr) :
  lines <> [] -> Forall (fun l => ~ In 10 l) lines ->
  split_on 10 (join nl lines) = lines.
Proof.
  induction lines as [|l rest IH]; [congruence|].
  intros _ H. inversion H as [|? ? Hl Hrest]; subst.
  destruct rest as [|l' rest'].
  - simpl. now apply split_on_no_sep_id.
  - change (join nl (l :: l' :: rest')) with (l ++ 10 :: join nl (l' :: rest')).
    rewrite split_on_app by assumption.
    f_equal. apply IH; [discriminate|assumption].
Qed.

Lemma strip_space_cons (c : N) (w : pystr) :
  isspace c = true -> strip (c :: w) = strip w.
Proof.
  intros E. unfold strip. simpl.
  destruct (rstrip w) as [|a r]; rewrite ?E; simpl; rewrite ?E; auto.
Qed.

Lemma effective_cons (l : pystr) (ls : list pystr) :
  effective (l :: ls) =
  if is_empty (strip l) then effective ls else strip l :: effective ls.
Proof.
  unfold effective. simpl. now destruct (is_empty (strip l)).
Qed.

Lemma effective_split_lstrip (t : pystr) :
  effective (split_on 10 (lstrip t)) = effective (split_on 10 t).
Proof.
  induction t as [|c t IH]; simpl; auto.
  destruct (isspace c) eqn:E; auto.
  rewrite IH. destruct (N.eqb_spec c 10) as [->|Hne].
  - now rewrite effective_cons.
  - destruct (split_on_cons 10 t) as (w & ws & ->).
    now rewrite !effective_cons, strip_space_cons.
Qed.

Lemma split_rstrip (t : pystr) :
  exists w ws w' ws',
    split_on 10 t = w :: ws /\ split_on 10 (rstrip t) = w' :: ws' /\
    rstrip w' = rstrip w /\ effective ws' = effective ws.
Proof.
  induction t as [|c t (w & ws & w' & ws' & Ht & Hr & Hw & Hws)].
  - exists [], [], [], []. auto.
  - simpl. rewrite Ht. destruct (rstrip t) as [|a r] eqn:R.
    + simpl in Hr. injection Hr as <- <-. simpl in Hw.
      destruct (isspace c) eqn:E.
      * destruct (N.eqb_spec c 10) as [->|Hne].
        -- exists [], (w :: ws), [], []. repeat split; auto.
           rewrite effective_cons. unfold strip. now rewrite <- Hw, <- Hws.
        -- exists (c :: w), ws, [], []. repeat split; auto.
           simpl. now rewrite <- Hw, E.
      * assert (Hne : (c =? 10) = false).
        { destruct (N.eqb_spec c 10) as [->|]; [discriminate|reflexivity]. }
        rewrite Hne. exists (c :: w), ws, [c], []. repeat split; auto.
        -- simpl. now rewrite Hne.
        -- simpl. now rewrite <- Hw, E.
    + change (split_on 10 (c :: a :: r)) with
        (if c =? 10 then [] :: split_on 10 (a :: r)
         else match split_on 10 (a :: r) with
              | [] => [[c]]
              | x :: xs => (c :: x) :: xs
              end).
      rewrite Hr. destruct (c =? 10).
      * exists [], (w :: ws), [], (w' :: ws'). repeat split; auto.
        rewrite !effective_cons. unfold strip. now rewrite Hw, Hws.
      * exists (c :: w), ws, (c :: w'), ws'. repeat split; auto.
        simpl. now rewrite Hw.
Qed.

Lemma effective_split_strip (t : pystr) :
  effective (split_on 10 (strip t)) = effective (split_on 10 t).
Proof.
  unfold strip at 1. rewrite effective_split_lstrip.
  destruct (split_rstrip t) as (w & ws & w' & ws' & -> & -> & Hw & Hws).
  rewrite !effective_cons. unfold strip. now rewrite Hw, Hws.
Qed.

End StringFacts.

(** ** The loop of [parse_text] *)

Lemma bind_Ok {A B : Type} (m : result A) (k : A -> result B) (b : B) :
  bind m k = Ok b -> exists a, m = Ok a /\ k a = Ok b.
Proof. destruct m; simpl; [eauto|discriminate]. Qed.

Lemma process_line_strip (st : loop_state) (raw : pystr) :
  process_line st (strip raw) = process_line st raw.
Proof. unfold process_line. now rewrite strip_idem. Qed.

Lemma process_line_blank (st : loop_state) (raw : pystr) :
  is_empty (strip raw) = true -> process_line st raw = Ok st.
Proof. intros H. unfold process_line. now rewrite H. Qed.

(** A line that is no heading, divider or bullet is dropped when there is no
    current record. *)
Lemma free_text_dropped (out : list slide) (raw : pystr) :
  is_title_line (strip raw) = false ->
  is_section_line (strip raw) = false ->
  is_bullet_line (strip raw) = false ->
  process_line (out, None) raw = Ok (out, None).
Proof.
  intros T S B. unfold process_line. rewrite T, S, B.
  now destruct (is_empty (strip raw)).
Qed.

(** The loop acts on the stripped, non-blank lines only. *)
Lemma for_each_effective (lines : list pystr) (st : loop_state) :
  for_each process_line lines st = for_each process_line (effective lines) st.
Proof.
  revert st. induction lines as [|l ls IH]; intros st; [reflexivity|].
  rewrite effective_cons. simpl.
  destruct (is_empty (strip l)) eqn:E.
  - rewrite process_line_blank by assumption. simpl. apply IH.
  - simpl. rewrite process_line_strip.
    destruct (process_line st l); simpl; auto.
Qed.

(** Stripping the whole text first changes nothing for the loop. *)
Lemma for_each_strip_text (text : pystr) (st : loop_state) :
  for_each process_line (split_on 10 (strip text)) st =
  for_each process_line (split_on 10 text) st.
Proof.
  rewrite for_each_effective, effective_split_strip.
  symmetry. apply for_each_effective.
Qed.

(** *** The keys the loop reads are present *)

Ltac step_returns :=
  eexists; split; [reflexivity|]; simpl; unfold has_keys; simpl; eauto.

Lemma process_line_returns (st : loop_state) (raw : pystr) :
  current_has_keys (snd st) ->
  exists st', process_line st raw = Ok st' /\ current_has_keys (snd st').
Proof.
  destruct st as [out cur]. unfold process_line. simpl. intros H.
  destruct (is_empty (strip raw)); [eauto|].
  destruct (is_title_line (strip raw)); [step_returns|].
  destruct (is_section_line (strip raw)); [step_returns|].
  destruct (is_bullet_line (strip raw)).
  - destruct cur as [d|]; simpl in *; [|step_returns].
    unfold has_keys in H. destruct d as [ty t sub con lay gr]. simpl in *.
    destruct ty; simpl; try step_returns.
    destruct H as [v ->]. simpl. step_returns.
  - destruct cur as [d|]; simpl in *; [|eauto].
    unfold has_keys in H. destruct d as [ty t sub con lay gr]. simpl in *.
    destruct ty; simpl; try step_returns.
    + destruct H as [v ->]. simpl. destruct (is_empty v); step_returns.
    + destruct H as [v ->]. simpl. step_returns.
Qed.

Lemma for_each_returns (lines : list pystr) (st : loop_state) :
  current_has_keys (snd st) ->
  exists st', for_each process_line lines st = Ok st'.
Proof.
  revert st. induction lines as [|l ls IH]; intros st H; simpl; [eauto|].
  destruct (process_line_returns st l H) as (st' & -> & H').
  simpl. now apply IH.
Qed.

Lemma parse_text_returns (self : OutlineParser) (text : pystr) :
  exists out : list slide, parse_text self text = Ok (out, mkParser out).
Proof.
  unfold parse_text.
  destruct (for_each_returns (split_on 10 (strip text)) (slides self, None) I)
    as (st & ->).
  simpl. eauto.
Qed.

(** *** What is already in [self.slides] is left in place *)

Lemma append_current_shift (pre : list slide) (st : loop_state) :
  append_current (shift pre st) = pre ++ append_current st.
Proof.
  destruct st as [out [d|]]; unfold append_current; simpl; auto.
  now rewrite app_assoc.
Qed.

Lemma process_line_shift (pre : list slide) (st : loop_state) (raw : pystr) :
  process_line (shift pre st) raw =
  (st' <- process_line st raw ;; Ok (shift pre st')).
Proof.
  unfold process_line.
  destruct (is_empty (strip raw)); [reflexivity|].
  destruct (is_title_line (strip raw)).
  { simpl bind. now rewrite append_current_shift. }
  destruct (is_section_line (strip raw)).
  { simpl bind. now rewrite append_current_shift. }
  destruct st as [out cur]. simpl.
  destruct (is_bullet_line (strip raw)).
  - destruct (slide_type_eqb _ T_content); [|reflexivity].
    destruct (get_content _); reflexivity.
  - destruct cur as [d|]; [|reflexivity].
    destruct (slide_type_eqb (s_type d) T_title).
    + destruct (get_subtitle d); [|reflexivity]. simpl.
      destruct (is_empty a); reflexivity.
    + destruct (slide_type_eqb (s_type d) T_content); [|reflexivity].
      destruct (get_content d); reflexivity.
Qed.

Lemma for_each_shift (pre : list slide) (lines : list pystr) (st : loop_state) :
  for_each process_line lines (shift pre st) =
  (st' <- for_each process_line lines st ;; Ok (shift pre st')).
Proof.
  revert st. induction lines as [|l ls IH]; intros st; [reflexivity|].
  simpl. rewrite process_line_shift.
  destruct (process_line st l); simpl; auto.
Qed.

Lemma parse_text_accumulates (pre : list slide) (text : pystr) :
  parse_text (mkParser pre) text =
  (r <- parse_text new_parser text ;;
   Ok (pre ++ fst r, mkParser (pre ++ fst r))).
Proof.
  unfold parse_text. simpl slides.
  replace (pre, @None slide) with (shift pre ([], None))
    by (unfold shift; simpl; now rewrite app_nil_r).
  rewrite for_each_shift.
  destruct (for_each process_line _ ([], None)); simpl; [|reflexivity].
  now rewrite append_current_shift.
Qed.

(** *** The bullet items of the records *)

Lemma clean_line (raw : pystr) : ~ In 10%N raw -> clean (strip raw).
Proof. apply clean_strip. Qed.

Lemma clean_bullet_text (raw : pystr) :
  ~ In 10%N raw -> clean (bullet_text (strip raw)).
Proof.
  intros H. apply clean_strip. intros H'.
  apply In_lstrip_chars, In_strip in H'. contradiction.
Qed.

Lemma good_append_current (st : loop_state) :
  good_state st -> Forall good_slide (append_current st).
Proof.
  destruct st as [out [d|]]; unfold good_state, append_current; simpl.
  - intros [Ho Hd]. apply Forall_app. auto.
  - tauto.
Qed.

Lemma good_fresh (ty : slide_type) (t : pystr) (sub : option pystr) :
  ty <> T_content -> good_slide (mkSlide ty t sub (Some []) None None).
Proof.
  intros H. split; simpl.
  - intros items [= <-]. constructor.
  - congruence.
Qed.

Lemma good_extend (d : slide) (items : list pystr) (x : pystr) :
  good_slide d -> s_content d = Some items -> clean x ->
  good_slide (set_content (items ++ [x]) d).
Proof.
  intros [Hc _] Hi Hx. split; simpl.
  - intros ? [= <-]. apply Forall_app. split; auto.
  - intros _. destruct items; simpl; eauto.
Qed.

Lemma good_coerced (d : slide) (x : pystr) :
  clean x -> good_slide (set_content [x] (set_type T_content d)).
Proof.
  intros Hx. split; simpl.
  - intros ? [= <-]. auto.
  - eauto.
Qed.

Lemma good_set_subtitle (d : slide) (v : pystr) :
  good_slide d -> good_slide (set_subtitle v d).
Proof. intros H. exact H. Qed.

Lemma process_line_good (st st' : loop_state) (raw : pystr) :
  ~ In 10%N raw -> good_state st -> process_line st raw = Ok st' ->
  good_state st'.
Proof.
  intros Hnl Hst. pose proof (good_append_current _ Hst) as Happ.
  destruct st as [out cur]. destruct Hst as [Hout Hcur]. simpl in Hout, Hcur.
  unfold process_line. simpl fst. simpl snd.
  destruct (is_empty (strip raw)).
  { intros [= <-]. split; auto. }
  destruct (is_title_line (strip raw)).
  { intros [= <-]. split; auto. simpl. apply good_fresh. discriminate. }
  destruct (is_section_line (strip raw)).
  { intros [= <-]. split; auto. simpl. apply good_fresh. discriminate. }
  pose proof (clean_bullet_text raw Hnl) as Hb.
  pose proof (clean_line raw Hnl) as Hl.
  destruct (is_bullet_line (strip raw)).
  - destruct (slide_type_eqb _ T_content).
    + intros H. apply bind_Ok in H. destruct H as (items & Hg & [= <-]).
      split; auto. simpl. unfold get_content in Hg.
      destruct cur as [d|].
      * destruct (s_content d) eqn:E; [|discriminate].
        injection Hg as ->. now apply good_extend.
      * simpl in Hg. injection Hg as <-. now apply good_coerced.
    + intros [= <-]. split; auto. simpl. now apply good_coerced.
  - destruct cur as [d|]; [|intros [= <-]; split; auto].
    destruct (slide_type_eqb (s_type d) T_title).
    + intros H. apply bind_Ok in H. destruct H as (sub & _ & H).
      destruct (is_empty sub); injection H as <-; split; auto.
    + destruct (slide_type_eqb (s_type d) T_content).
      * intros H. apply bind_Ok in H. destruct H as (items & Hg & [= <-]).
        split; auto. simpl. unfold get_content in Hg.
        destruct (s_content d) eqn:E; [|discriminate].
        injection Hg as ->. now apply good_extend.
      * intros [= <-]. split; auto.
Qed.

Lemma for_each_good (lines : list pystr) (st st' : loop_state) :
  Forall (fun l => ~ In 10%N l) lines -> good_state st ->
  for_each process_line lines st = Ok st' -> good_state st'.
Proof.
  revert st. induction lines as [|l ls IH]; intros st Hl Hst; simpl.
  - now intros [= <-].
  - inversion Hl as [|? ? Hhd Htl]; subst. intros H. apply bind_Ok in H.
    destruct H as (st1 & Hstep & Hrest).
    apply (IH st1); auto. eapply process_line_good; eauto.
Qed.

Lemma parse_text_good (text : pystr) (out : list slide) (p : OutlineParser) :
  parse_text new_parser text = Ok (out, p) -> Forall good_slide out.
Proof.
  unfold parse_text. intros H. apply bind_Ok in H.
  destruct H as (st & Hst & [= <- _]).
  apply good_append_current.
  apply (for_each_good (split_on 10 (strip text)) ([], None) st).
  - apply Forall_forall. intros l. apply split_on_no_sep.
  - split; simpl; auto.
  - exact Hst.
Qed.

(** *** Bullet lines written back from clean items *)

Lemma lstrip_length (s : pystr) : List.length (lstrip s) <= List.length s.
Proof.
  induction s as [|c s IH]; simpl; auto.
  destruct (isspace c); simpl; lia.
Qed.

Lemma lstrip_fixed_head (a : N) (s : pystr) :
  lstrip (a :: s) = a :: s -> isspace a = false.
Proof.
  simpl. destruct (isspace a); auto.
  intros H. pose proof (lstrip_length s) as L.
  rewrite H in L. simpl in L. lia.
Qed.

Lemma rstrip_cons_nonempty (c a : N) (s r : pystr) :
  rstrip s = a :: r -> rstrip (c :: s) = c :: a :: r.
Proof. intros H. simpl. now rewrite H. Qed.

Lemma strip_bullet_line (item : pystr) :
  clean item ->
  strip (py "- " ++ item) =
  match item with
  | [] => py "-"
  | _ :: _ => py "- " ++ item
  end.
Proof.
  intros (L & R & _). destruct item as [|a s]; [reflexivity|].
  unfold strip. change (py "- " ++ a :: s) with (45 :: 32 :: a :: s)%N.
  rewrite (rstrip_cons_nonempty 45 32 _ _ (rstrip_cons_nonempty 32 a _ _ R)).
  reflexivity.
Qed.

Lemma bullet_line_facts (item : pystr) :
  clean item ->
  let line := strip (py "- " ++ item) in
  is_empty line = false /\ is_title_line line = false /\
  is_section_line line = false /\ is_bullet_line line = true /\
  bullet_text line = item.
Proof.
  intros H. rewrite (strip_bullet_line _ H). destruct H as (L & R & _).
  destruct item as [|a s]; [repeat split; reflexivity|].
  change (py "- " ++ a :: s) with (45 :: 32 :: a :: s)%N.
  repeat split; try reflexivity.
  unfold bullet_text.
  change (lstrip_chars (py "-" ++ bullet_glyph) (45 :: 32 :: a :: s)%N)
    with (32 :: a :: s)%N.
  rewrite strip_space_cons by reflexivity.
  now apply strip_fixed.
Qed.

Lemma process_bullet_line_first (out : list slide) (item : pystr) :
  clean item ->
  process_line (out, None) (py "- " ++ item) =
  Ok (out, Some (set_content [item] default_content_slide)).
Proof.
  intros H. destruct (bullet_line_facts _ H) as (E & T & S & B & X).
  unfold process_line. rewrite E, T, S, B, X. reflexivity.
Qed.

Lemma process_bullet_line_next
  (out : list slide) (d : slide) (items : list pystr) (item : pystr) :
  clean item -> s_type d = T_content -> s_content d = Some items ->
  process_line (out, Some d) (py "- " ++ item) =
  Ok (out, Some (set_content (items ++ [item]) d)).
Proof.
  intros H Ht Hc. destruct (bullet_line_facts _ H) as (E & T & S & B & X).
  unfold process_line. rewrite E, T, S, B, X. cbn [snd fst].
  rewrite Ht. unfold get_content. rewrite Hc. reflexivity.
Qed.

Lemma for_each_bullet_lines
  (out : list slide) (d : slide) (items more : list pystr) :
  Forall clean more -> s_type d = T_content -> s_content d = Some items ->
  for_each process_line (List.map (fun item => py "- " ++ item) more)
    (out, Some d) =
  Ok (out, Some (set_content (items ++ more) d)).
Proof.
  revert d items. induction more as [|x more IH]; intros d items Hm Ht Hc.
  - simpl. rewrite app_nil_r. destruct d. simpl in *. now subst.
  - inversion Hm as [|? ? Hx Hmore]; subst.
    change (List.map _ (x :: more))
      with ((py "- " ++ x) :: List.map (fun item => py "- " ++ item) more).
    cbn [for_each]. rewrite (process_bullet_line_next out d items x Hx Ht Hc).
    cbn [bind]. rewrite (IH (set_content (items ++ [x]) d) (items ++ [x]));
      auto.
    now rewrite <- app_assoc.
Qed.

Lemma bullet_line_no_newline (item : pystr) :
  clean item -> ~ In 10%N (py "- " ++ item).
Proof.
  intros (_ & _ & H) [E|[E|E]]; try discriminate. contradiction.
Qed.

(** Re-parsing the bullet lines of clean items on a fresh parser gives one
    default record that holds exactly these items. *)
Lemma parse_bullet_lines (x : pystr) (xs : list pystr) :
  Forall clean (x :: xs) ->
  parse_text new_parser (bullet_lines (x :: xs)) =
  Ok ([set_content (x :: xs) default_content_slide],
      mkParser [set_content (x :: xs) default_content_slide]).
Proof.
  intros H. unfold parse_text. rewrite for_each_strip_text.
  unfold bullet_lines. rewrite split_on_join.
  - inversion H as [|? ? Hx Hxs]; subst.
    change (List.map _ (x :: xs))
      with ((py "- " ++ x) :: List.map (fun item => py "- " ++ item) xs).
    cbn [for_each slides new_parser].
    rewrite (process_bullet_line_first [] x Hx). cbn [bind].
    rewrite (for_each_bullet_lines [] _ [x] xs); auto.
  - discriminate.
  - apply Forall_forall. intros l Hl. apply in_map_iff in Hl.
    destruct Hl as (item & <- & Hin). apply bullet_line_no_newline.
    rewrite Forall_forall in H. auto.
Qed.

(** ** Batches *)

Section Chunks.

Context {A : Type}.

Lemma firstn_add_skipn (a b : nat) (l : list A) :
  firstn (a + b) l = firstn a l ++ firstn b (skipn a l).
Proof.
  revert l. induction a as [|a IH]; intros l; [reflexivity|].
  destruct l as [|x l]; simpl.
  - now rewrite firstn_nil.
  - now rewrite IH.
Qed.

Lemma firstn_min_length (a : nat) (l : list A) :
  firstn (Nat.min a (List.length l)) l = firstn a l.
Proof.
  destruct (Nat.le_ge_cases a (List.length l)) as [H|H].
  - now rewrite Nat.min_l.
  - rewrite Nat.min_r by assumption.
    rewrite firstn_all. symmetry. now apply firstn_all2.
Qed.

Lemma concat_chunks (b m : nat) (l : list A) :
  List.concat (List.map (fun k => firstn b (skipn (k * b) l)) (seq 0 m)) =
  firstn (m * b) l.
Proof.
  induction m as [|m IH]; [reflexivity|].
  rewrite seq_S, map_app, concat_app, IH. simpl.
  rewrite app_nil_r, (Nat.add_comm b (m * b)).
  symmetry. apply firstn_add_skipn.
Qed.

Lemma py_slice_chunk (l : list A) (i b : Z) :
  (0 <= i <= Z.of_nat (List.length l))%Z -> (0 <= b)%Z ->
  py_slice l i (i + b) = firstn (Z.to_nat b) (skipn (Z.to_nat i) l).
Proof.
  intros Hi Hb. unfold py_slice.
  destruct (Z.ltb_spec i 0); [lia|].
  destruct (Z.ltb_spec (i + b) 0); [lia|].
  rewrite (Z.min_l i) by lia.
  rewrite <- (firstn_min_length (Z.to_nat b)).
  f_equal. rewrite length_skipn. lia.
Qed.

End Chunks.

Lemma nth_error_seq (s m k : nat) :
  nth_error (seq s m) k = if Nat.ltb k m then Some (s + k) else None.
Proof.
  revert s k. induction m as [|m IH]; intros s k.
  - now destruct k.
  - destruct k as [|k]; simpl.
    + now rewrite Nat.add_0_r.
    + rewrite IH. change (Nat.ltb (S k) (S m)) with (Nat.ltb k m).
      destruct (Nat.ltb k m); auto; f_equal; lia.
Qed.

Lemma batch_count_covers (n b : Z) :
  (0 <= n)%Z -> (1 <= b)%Z -> (n <= Z.of_nat (batch_count n b) * b)%Z.
Proof.
  intros Hn Hb. unfold batch_count. destruct (Z.ltb_spec 0 n); [|lia].
  pose proof (Z.mul_succ_div_gt (n - 1) b ltac:(lia)).
  pose proof (Z.div_pos (n - 1) b ltac:(lia) ltac:(lia)).
  rewrite Z2Nat.id by lia. nia.
Qed.

Lemma batch_count_inside (n b : Z) (k : nat) :
  (0 <= n)%Z -> (1 <= b)%Z -> k < batch_count n b ->
  (Z.of_nat k * b < n)%Z.
Proof.
  intros Hn Hb. unfold batch_count. destruct (Z.ltb_spec 0 n); [|lia].
  pose proof (Z.mul_div_le (n - 1) b ltac:(lia)).
  pose proof (Z.div_pos (n - 1) b ltac:(lia) ltac:(lia)).
  intros Hk. assert (Z.of_nat k <= (n - 1) / b)%Z by lia. nia.
Qed.

(** [split_for_agents] as a list of chunks taken at multiples of the batch
    size. *)
Lemma split_for_agents_chunks (self : OutlineParser) (batch_size : Z) :
  (1 <= batch_size)%Z ->
  split_for_agents self batch_size =
  Ok (List.map
        (fun k => mkBatch (Z.of_nat k) (Z.of_nat k * batch_size)
                    (firstn (Z.to_nat batch_size)
                       (skipn (k * Z.to_nat batch_size) (slides self))))
        (seq 0 (batch_count (Z.of_nat (List.length (slides self))) batch_size))).
Proof.
  intros Hb. unfold split_for_agents, py_range.
  destruct (Z.eqb_spec batch_size 0); [lia|].
  destruct (Z.ltb_spec 0 batch_size); [|lia].
  cbn [bind]. rewrite map_map. f_equal.
  rewrite Z.sub_0_r. fold (batch_count (Z.of_nat (List.length (slides self))) batch_size).
  apply map_ext_in. intros k Hk. apply in_seq in Hk.
  pose proof (batch_count_inside (Z.of_nat (List.length (slides self)))
                batch_size k ltac:(lia) Hb ltac:(lia)) as Hin.
  rewrite Z.add_0_l, Z.div_mul by lia.
  rewrite py_slice_chunk by lia.
  do 3 f_equal. lia.
Qed.

(** ** The layout heuristic *)

Lemma existsb_join (f : N -> bool) (sep : pystr) (parts : list pystr) :
  existsb f sep = false ->
  existsb f (join sep parts) = existsb f (List.concat parts).
Proof.
  intros Hsep. induction parts as [|p rest IH]; [reflexivity|].
  destruct rest as [|q rest].
  - simpl. now rewrite app_nil_r.
  - change (join sep (p :: q :: rest)) with (p ++ sep ++ join sep (q :: rest)).
    change (List.concat (p :: q :: rest)) with (p ++ List.concat (q :: rest)).
    now rewrite !existsb_app, Hsep, IH.
Qed.

Lemma contains_code_point (c : N) (s : pystr) :
  contains [c] s = existsb (N.eqb c) s.
Proof.
  induction s as [|x s IH]; [reflexivity|].
  simpl. rewrite IH, (N.eqb_sym x c).
  destruct (N.eqb c x); simpl; auto. now destruct s.
Qed.

Lemma contains_in_joined (c : N) (items : list pystr) :
  c <> 32%N ->
  contains [c] (join (py " ") items) = has_code_point c items.
Proof.
  intros H. rewrite contains_code_point. apply existsb_join.
  simpl. destruct (N.eqb_spec c 32); [contradiction|reflexivity].
Qed.

Lemma enhance_layout (d : slide) :
  s_type d = T_content ->
  s_layout (enhance d) = Some (layout_rule (content_or_empty d)).
Proof.
  intros Ht. unfold enhance, layout_rule. rewrite Ht. cbn [slide_type_eqb].
  change (py "%") with [37%N]. change (py "$") with [36%N].
  change (py "M") with [77%N]. change (py "K") with [75%N].
  rewrite !contains_in_joined by discriminate.
  rewrite (existsb_join isdigit (py " ")) by reflexivity.
  destruct (Nat.ltb 5 _); [reflexivity|].
  destruct (Nat.leb _ 3); rewrite ?andb_false_r; [|reflexivity].
  destruct (existsb isdigit _); [|reflexivity].
  cbn [andb].
  destruct (has_code_point 37 _ || has_code_point 36 _
            || has_code_point 77 _ || has_code_point 75 _); reflexivity.
Qed.

(** The keyword test of the section condition is never reached with a line
    that starts with ["## "]: such a line is a title line. *)
Lemma section_keyword_unreachable (line : pystr) :
  is_title_line line = false ->
  is_section_line line = startswith line (py "---").
Proof.
  unfold is_title_line, is_section_line. intros H.
  apply orb_false_iff in H. destruct H as [_ ->].
  now rewrite orb_false_r.
Qed.

Lemma heading_is_title (st : loop_state) (raw : pystr) :
  is_title_line (strip raw) = true ->
  process_line st raw =
  Ok (append_current st,
      Some (title_slide (strip (lstrip_chars (py "#") (strip raw))))).
Proof.
  intros H. unfold process_line. rewrite H.
  destruct (strip raw); [discriminate|reflexivity].
Qed.

(** ** The claims *)

(** C1 (as amended).  On the outline of the end-to-end scenario a fresh
    parser returns exactly one record: the title record of the heading, coerced
    to a content record by the first bullet, with title "Q1 Review", subtitle
    "Growth story" and the two bullet items in order; the layout heuristic
    gives this record [big_number]. *)
Theorem e2e_scenario_one_coerced_record :
  parse_text new_parser e2e_outline = Ok ([e2e_record], mkParser [e2e_record])
  /\ s_layout (enhance e2e_record) = Some big_number
  /\ _fallback_plan e2e_outline = Ok [set_layout big_number e2e_record].
Proof. repeat split; vm_compute; reflexivity. Qed.

(** C1 (as stated) fails: the parser does not return a title record followed
    by a content record titled "Content" on the scenario outline. *)
Lemma e2e_scenario_not_two_records :
  ~ (exists out p,
       parse_text new_parser e2e_outline = Ok (out, p) /\ e2e_two_records out).
Proof.
  intros (out & p & H & d1 & d2 & -> & _).
  vm_compute in H. discriminate H.
Qed.

(** C2 (code at the failing input).  A ["## "] heading that holds the word
    "section" is taken by the title branch: the record is a title record and
    the "Section:" label stays in its title. *)
Theorem section_heading_parsed_as_title :
  parse_text new_parser section_heading =
  Ok ([title_slide (py "Section: Overview")],
      mkParser [title_slide (py "Section: Overview")]).
Proof. vm_compute. reflexivity. Qed.

(** C3.  When a line reaches the bullet branch while the current record is a
    title or a section record, that record itself becomes a content record
    whose only item is the bullet text; [self.slides] is unchanged, so no
    record is added. *)
Theorem bullet_coerces_current_record (out : list slide) (cur : slide) (raw : pystr) :
  is_empty (strip raw) = false ->
  is_title_line (strip raw) = false ->
  is_section_line (strip raw) = false ->
  is_bullet_line (strip raw) = true ->
  s_type cur = T_title \/ s_type cur = T_section ->
  exists cur',
    process_line (out, Some cur) raw = Ok (out, Some cur') /\
    s_type cur' = T_content /\
    s_content cur' = Some [bullet_text (strip raw)] /\
    s_title cur' = s_title cur /\ s_subtitle cur' = s_subtitle cur.
Proof.
  intros E T S B K.
  exists (set_content [bullet_text (strip raw)] (set_type T_content cur)).
  repeat split. unfold process_line. rewrite E, T, S, B. cbn [snd fst].
  destruct K as [-> | ->]; reflexivity.
Qed.

Lemma bullet_coerces_current_record_witness :
  exists cur',
    process_line ([], Some (title_slide (py "Q1 Review"))) (py "- Revenue up 15%")
    = Ok ([], Some cur') /\
    s_type cur' = T_content /\
    s_content cur' = Some [bullet_text (strip (py "- Revenue up 15%"))] /\
    s_title cur' = s_title (title_slide (py "Q1 Review")) /\
    s_subtitle cur' = s_subtitle (title_slide (py "Q1 Review")).
Proof.
  apply (bullet_coerces_current_record [] (title_slide (py "Q1 Review"))
           (py "- Revenue up 15%")).
  - reflexivity.
  - reflexivity.
  - reflexivity.
  - reflexivity.
  - left. reflexivity.
Defined.

(** C4 (code at the failing input).  Of three lines that start with a
    hyphen, with U+2022 and with the glyph literal of the source, the first
    and the third are bullet lines and lose their marker; the line that starts
    with U+2022 is taken as free text and keeps its glyph.  With no current
    record such a line is dropped. *)
Theorem unicode_bullet_not_a_marker :
  parse_text new_parser three_markers =
  Ok ([set_content [py "a"; unicode_bullet ++ py " b"; py "c"]
         default_content_slide],
      mkParser [set_content [py "a"; unicode_bullet ++ py " b"; py "c"]
                  default_content_slide])
  /\ is_bullet_line (unicode_bullet ++ py " b") = false
  /\ parse_text new_parser (unicode_bullet ++ py " b") = Ok ([], mkParser []).
Proof. repeat split; vm_compute; reflexivity. Qed.

(** C5.  [validate_structure] returns [False] and leaves the parser as it is
    when [self.slides] is empty; otherwise it returns [True], and puts the
    default title record (title "Presentation", empty subtitle) in front of an
    unchanged list exactly when the first record is not a title record.  It
    returns [False] for the empty list only. *)
Theorem validate_structure_cases :
  validate_structure (mkParser []) = (false, mkParser [])
  /\ (forall (d : slide) (rest : list slide),
        validate_structure (mkParser (d :: rest)) =
        (true,
         mkParser (if slide_type_eqb (s_type d) T_title then d :: rest
                   else default_title_slide :: d :: rest)))
  /\ s_type default_title_slide = T_title
  /\ s_title default_title_slide = py "Presentation"
  /\ s_subtitle default_title_slide = Some []
  /\ (forall self : OutlineParser,
        fst (validate_structure self) =
        match slides self with [] => false | _ :: _ => true end).
Proof.
  repeat split.
  - intros d rest. unfold validate_structure. simpl.
    now destruct (slide_type_eqb (s_type d) T_title).
  - intros [[|d rest]]; unfold validate_structure; simpl; auto.
    now destruct (slide_type_eqb (s_type d) T_title).
Qed.

(** C6.  For a content record the layout set by [_fallback_plan] is the one
    of the rule order of the specification, first match winning: more than
    five items give [two_column]; otherwise at most three items whose text
    holds a digit and one of %, $, M, K give [big_number]; otherwise
    [bullets].  Six items always give [two_column], and two content records
    with the same items get the same layout. *)
Theorem layout_follows_rule_order (d : slide) :
  s_type d = T_content ->
  s_layout (enhance d) = Some (layout_rule (content_or_empty d))
  /\ (List.length (content_or_empty d) = 6 ->
      s_layout (enhance d) = Some two_column)
  /\ (forall d' : slide,
        s_type d' = T_content ->
        content_or_empty d' = content_or_empty d ->
        s_layout (enhance d') = s_layout (enhance d)).
Proof.
  intros Ht. rewrite (enhance_layout d Ht). repeat split.
  - intros H6. unfold layout_rule. now rewrite H6.
  - intros d' Ht' Hc. rewrite (enhance_layout d' Ht'). now rewrite Hc.
Qed.

Lemma layout_follows_rule_order_witness :
  s_layout (enhance e2e_record) = Some (layout_rule (content_or_empty e2e_record))
  /\ (List.length (content_or_empty e2e_record) = 6 ->
      s_layout (enhance e2e_record) = Some two_column)
  /\ (forall d' : slide,
        s_type d' = T_content ->
        content_or_empty d' = content_or_empty e2e_record ->
        s_layout (enhance d') = s_layout (enhance e2e_record)).
Proof.
  apply (layout_follows_rule_order e2e_record). reflexivity.
Defined.

(** C7.  For a batch size of at least 1, [split_for_agents] returns batches
    whose slides, concatenated in order, are [self.slides]; the batch at
    position [k] has id [k] and start index [k * batch_size], holds the slides
    from that index on (at most [batch_size] of them, at least one), and every
    batch but the last holds exactly [batch_size] slides. *)
Theorem split_for_agents_partitions (self : OutlineParser) (batch_size : Z) :
  (1 <= batch_size)%Z ->
  exists batches : list batch,
    split_for_agents self batch_size = Ok batches
    /\ List.concat (List.map batch_slides batches) = slides self
    /\ forall (k : nat) (b : batch),
         nth_error batches k = Some b ->
         batch_id b = Z.of_nat k
         /\ start_index b = (Z.of_nat k * batch_size)%Z
         /\ batch_slides b =
            firstn (Z.to_nat batch_size)
              (skipn (Z.to_nat (start_index b)) (slides self))
         /\ nth_error (batch_slides b) 0 =
            nth_error (slides self) (Z.to_nat (start_index b))
         /\ batch_slides b <> []
         /\ (S k < List.length batches ->
             Z.of_nat (List.length (batch_slides b)) = batch_size).
Proof.
  intros Hb. rewrite (split_for_agents_chunks self batch_size Hb).
  set (l := slides self). set (n := Z.of_nat (List.length l)).
  set (bn := Z.to_nat batch_size).
  eexists. split; [reflexivity|]. split.
  - rewrite map_map. cbn [batch_slides].
    rewrite (concat_chunks bn (batch_count n batch_size) l).
    apply firstn_all2.
    pose proof (batch_count_covers n batch_size ltac:(lia) Hb). nia.
  - intros k b. rewrite nth_error_map, nth_error_seq, length_map, length_seq.
    destruct (Nat.ltb_spec k (batch_count n batch_size)) as [Hk|]; [|discriminate].
    intros [= <-]. cbn [batch_id start_index batch_slides option_map Nat.add].
    pose proof (batch_count_inside n batch_size k ltac:(lia) Hb Hk) as Hin.
    assert (Hidx : Z.to_nat (Z.of_nat k * batch_size) = k * bn) by nia.
    assert (Hlt : k * bn < List.length l) by nia.
    assert (Hpos : 0 < bn) by lia.
    rewrite Hidx. repeat split.
    + destruct bn as [|bn']; [lia|]. rewrite <- (firstn_skipn (k * S bn') l) at 2.
      rewrite nth_error_app2; rewrite length_firstn, Nat.min_l by lia; [|lia].
      rewrite Nat.sub_diag. now destruct (skipn (k * S bn') l).
    + intros E. apply (f_equal (@List.length slide)) in E.
      rewrite length_firstn, length_skipn in E. simpl in E. lia.
    + intros Hnext.
      pose proof (batch_count_inside n batch_size (S k) ltac:(lia) Hb Hnext).
      rewrite length_firstn, length_skipn. nia.
Qed.

Lemma split_for_agents_partitions_witness :
  exists batches : list batch,
    split_for_agents (mkParser [e2e_record; default_title_slide; e2e_record]) 2
    = Ok batches
    /\ List.concat (List.map batch_slides batches) =
       slides (mkParser [e2e_record; default_title_slide; e2e_record])
    /\ forall (k : nat) (b : batch),
         nth_error batches k = Some b ->
         batch_id b = Z.of_nat k
         /\ start_index b = (Z.of_nat k * 2)%Z
         /\ batch_slides b =
            firstn (Z.to_nat 2)
              (skipn (Z.to_nat (start_index b))
                 (slides (mkParser [e2e_record; default_title_slide; e2e_record])))
         /\ nth_error (batch_slides b) 0 =
            nth_error (slides (mkParser [e2e_record; default_title_slide; e2e_record]))
              (Z.to_nat (start_index b))
         /\ batch_slides b <> []
         /\ (S k < List.length batches ->
             Z.of_nat (List.length (batch_slides b)) = 2%Z).
Proof.
  apply (split_for_agents_partitions
           (mkParser [e2e_record; default_title_slide; e2e_record]) 2).
  lia.
Defined.

(** C8.  On a fresh parser, every content record that [parse_text] returns
    has a bullet list, and writing its items back as ["- item"] lines and
    parsing that text with a fresh parser returns one content record whose
    bullet list is the same. *)
Theorem bullet_lines_round_trip
  (text : pystr) (out : list slide) (p : OutlineParser) (d : slide) :
  parse_text new_parser text = Ok (out, p) ->
  In d out ->
  s_type d = T_content ->
  exists (items : list pystr) (d' : slide),
    s_content d = Some items
    /\ parse_text new_parser (bullet_lines items) = Ok ([d'], mkParser [d'])
    /\ s_type d' = T_content
    /\ s_content d' = Some items.
Proof.
  intros Hparse Hin Ht.
  pose proof (parse_text_good text out p Hparse) as Hgood.
  rewrite Forall_forall in Hgood.
  destruct (Hgood d Hin) as [Hclean Hne].
  destruct (Hne Ht) as (x & xs & Hc).
  exists (x :: xs), (set_content (x :: xs) default_content_slide).
  repeat split; auto.
  apply parse_bullet_lines. now apply Hclean.
Qed.

Lemma bullet_lines_round_trip_witness :
  exists (items : list pystr) (d' : slide),
    s_content e2e_record = Some items
    /\ parse_text new_parser (bullet_lines items) = Ok ([d'], mkParser [d'])
    /\ s_type d' = T_content
    /\ s_content d' = Some items.
Proof.
  apply (bullet_lines_round_trip e2e_outline [e2e_record] (mkParser [e2e_record])
           e2e_record).
  - vm_compute. reflexivity.
  - left. reflexivity.
  - reflexivity.
Defined.

(** C9.  [parse_text] never raises: for every parser state and every text it
    returns a list of records, which is then [self.slides]. *)
Theorem parse_text_never_raises (self : OutlineParser) (text : pystr) :
  exists out : list slide, parse_text self text = Ok (out, mkParser out).
Proof. apply parse_text_returns. Qed.

(** C10.  [parse_text] accumulates: two calls on one parser return, at the
    second call, the records of the first text followed by those of the
    second, and the other methods then see that list; with a non-empty
    [self.slides] the result differs from that of a fresh parser on the same
    text. *)
Theorem parse_text_accumulates_across_calls (t1 t2 : pystr) :
  exists r1 r2 : list slide,
    parse_text new_parser t1 = Ok (r1, mkParser r1)
    /\ parse_text new_parser t2 = Ok (r2, mkParser r2)
    /\ parse_text (mkParser r1) t2 = Ok (r1 ++ r2, mkParser (r1 ++ r2))
    /\ get_slide_count (mkParser (r1 ++ r2)) =
       (get_slide_count (mkParser r1) + get_slide_count (mkParser r2))%Z
    /\ parse_text (mkParser [e2e_record]) e2e_outline <>
       parse_text new_parser e2e_outline.
Proof.
  destruct (parse_text_returns new_parser t1) as (r1 & H1).
  destruct (parse_text_returns new_parser t2) as (r2 & H2).
  exists r1, r2. repeat split; auto.
  - rewrite parse_text_accumulates, H2. reflexivity.
  - unfold get_slide_count. simpl. rewrite length_app. lia.
  - vm_compute. discriminate.
Qed.

(** * Further properties of the code *)

(** ** Invariants of the records [parse_text] builds *)

Lemma slide_type_eqb_eq (a b : slide_type) :
  slide_type_eqb a b = true <-> a = b.
Proof. destruct a, b; simpl; split; congruence. Qed.

Lemma slide_type_eqb_neq (a b : slide_type) :
  slide_type_eqb a b = false <-> a <> b.
Proof. destruct a, b; simpl; split; congruence. Qed.

Section LoopInvariant.

Variable P : slide -> Prop.

Hypothesis P_title : forall raw : pystr,
  ~ In 10%N raw -> is_title_line (strip raw) = true ->
  P (title_slide (strip (lstrip_chars (py "#") (strip raw)))).

Hypothesis P_section : forall raw : pystr,
  ~ In 10%N raw ->
  is_title_line (strip raw) = false -> is_section_line (strip raw) = true ->
  P (section_slide
       (strip (replace (py "Section:") [] (strip (lstrip_chars (py "#") (strip raw)))))).

Hypothesis P_first_bullet : forall raw : pystr,
  ~ In 10%N raw -> P (set_content [bullet_text (strip raw)] default_content_slide).

Hypothesis P_bullet : forall (raw : pystr) (d : slide) (items : list pystr),
  ~ In 10%N raw -> P d -> s_type d = T_content -> s_content d = Some items ->
  P (set_content (items ++ [bullet_text (strip raw)]) d).

Hypothesis P_coerce : forall (raw : pystr) (d : slide),
  ~ In 10%N raw -> P d -> s_type d <> T_content ->
  P (set_content [bullet_text (strip raw)] (set_type T_content d)).

Hypothesis P_subtitle : forall (raw : pystr) (d : slide),
  ~ In 10%N raw -> P d -> s_type d = T_title -> P (set_subtitle (strip raw) d).

Hypothesis P_text : forall (raw : pystr) (d : slide) (items : list pystr),
  ~ In 10%N raw -> P d -> s_type d = T_content -> s_content d = Some items ->
  P (set_content (items ++ [strip raw]) d).

Lemma keeps_append_current (st : loop_state) :
  state_keeps P st -> Forall P (append_current st).
Proof.
  destruct st as [out [d|]]; unfold state_keeps, append_current; simpl.
  - intros [Ho Hd]. apply Forall_app. auto.
  - tauto.
Qed.

Lemma process_line_keeps (st st' : loop_state) (raw : pystr) :
  ~ In 10%N raw -> state_keeps P st -> process_line st raw = Ok st' ->
  state_keeps P st'.
Proof.
  intros Hnl Hst. pose proof (keeps_append_current st Hst) as Happ.
  destruct st as [out cur]. destruct Hst as [Hout Hcur]. simpl in Hout, Hcur.
  unfold process_line. cbn [fst snd].
  destruct (is_empty (strip raw)).
  { intros [= <-]. split; auto. }
  destruct (is_title_line (strip raw)) eqn:T.
  { intros [= <-]. split; auto. simpl. auto. }
  destruct (is_section_line (strip raw)) eqn:S.
  { intros [= <-]. split; auto. simpl. auto. }
  destruct (is_bullet_line (strip raw)).
  - destruct cur as [d|].
    + destruct (slide_type_eqb (s_type d) T_content) eqn:E.
      * apply slide_type_eqb_eq in E.
        intros H. apply bind_Ok in H. destruct H as (items & Hg & [= <-]).
        split; auto. simpl. unfold get_content in Hg.
        destruct (s_content d) eqn:C; [|discriminate].
        injection Hg as ->. auto.
      * apply slide_type_eqb_neq in E. intros [= <-]. split; auto. simpl. auto.
    + simpl. intros [= <-]. split; auto. simpl. auto.
  - destruct cur as [d|]; [|intros [= <-]; split; auto].
    destruct (slide_type_eqb (s_type d) T_title) eqn:E.
    + apply slide_type_eqb_eq in E.
      intros H. apply bind_Ok in H. destruct H as (sub & _ & H).
      destruct (is_empty sub); injection H as <-; split; auto.
      simpl. auto.
    + destruct (slide_type_eqb (s_type d) T_content) eqn:E'.
      * apply slide_type_eqb_eq in E'.
        intros H. apply bind_Ok in H. destruct H as (items & Hg & [= <-]).
        split; auto. simpl. unfold get_content in Hg.
        destruct (s_content d) eqn:C; [|discriminate].
        injection Hg as ->. auto.
      * intros [= <-]. split; auto.
Qed.

Lemma for_each_keeps (lines : list pystr) (st st' : loop_state) :
  Forall (fun l => ~ In 10%N l) lines -> state_keeps P st ->
  for_each process_line lines st = Ok st' -> state_keeps P st'.
Proof.
  revert st. induction lines as [|l ls IH]; intros st Hl Hst; simpl.
  - now intros [= <-].
  - inversion Hl as [|? ? Hhd Htl]; subst. intros H. apply bind_Ok in H.
    destruct H as (st1 & Hstep & Hrest).
    apply (IH st1); auto. eapply process_line_keeps; eauto.
Qed.

Lemma parse_text_keeps (text : pystr) (out : list slide) (p : OutlineParser) :
  parse_text new_parser text = Ok (out, p) -> Forall P out.
Proof.
  unfold parse_text. intros H. apply bind_Ok in H.
  destruct H as (st & Hst & [= <- _]).
  apply keeps_append_current.
  apply (for_each_keeps (split_on 10 (strip text)) ([], None) st).
  - apply Forall_forall. intros l. apply split_on_no_sep.
  - split; simpl; auto.
  - exact Hst.
Qed.

End LoopInvariant.

Lemma parse_text_shape (text : pystr) (out : list slide) (p : OutlineParser) :
  parse_text new_parser text = Ok (out, p) -> Forall parser_shape out.
Proof.
  apply (parse_text_keeps parser_shape); unfold parser_shape; simpl.
  - intros raw _ _. repeat split; try congruence. eauto.
  - intros raw _ _ _. repeat split; congruence.
  - intros raw _. repeat split; congruence.
  - intros raw d items _ (L & G & C & T & S) Ht _.
    repeat split; auto; congruence.
  - intros raw d _ (L & G & C & T & S) _. repeat split; auto; congruence.
  - intros raw d _ (L & G & C & T & S) Ht. repeat split; auto.
    + eauto.
    + congruence.
  - intros raw d items _ (L & G & C & T & S) Ht _.
    repeat split; auto; congruence.
Qed.

Lemma In_replace_from (x : N) (old : pystr) (skip : nat) (s : pystr) :
  In x (replace_from old [] skip s) -> In x s.
Proof.
  revert skip. induction s as [|c s IH]; intros skip; [simpl; auto|].
  cbn [replace_from]. destruct skip as [|k].
  - destruct (startswith (c :: s) old); cbn [app In].
    + intros H. right. eapply IH. exact H.
    + intros [H|H]; auto. right. eapply IH. exact H.
  - intros H. right. eapply IH. exact H.
Qed.

Lemma clean_nil : clean [].
Proof. repeat split. intros []. Qed.

Lemma parse_text_tidy (text : pystr) (out : list slide) (p : OutlineParser) :
  parse_text new_parser text = Ok (out, p) -> Forall tidy_heading out.
Proof.
  apply (parse_text_keeps tidy_heading); unfold tidy_heading; simpl.
  - intros raw Hnl _. split.
    + apply clean_strip. intros H.
      apply In_lstrip_chars, In_strip in H. contradiction.
    + intros v [= <-]. apply clean_nil.
  - intros raw Hnl _ _. split; [|discriminate].
    apply clean_strip. intros H.
    apply In_replace_from, In_strip, In_lstrip_chars, In_strip in H.
    contradiction.
  - intros raw _. split; [|discriminate].
    repeat split. intros H. vm_compute in H. intuition discriminate.
  - intros raw d items _ H _ _. exact H.
  - intros raw d _ H _. exact H.
  - intros raw d Hnl [Ht _] _. split; auto.
    intros v [= <-]. now apply clean_strip.
  - intros raw d items _ H _ _. exact H.
Qed.

Lemma startswith_dashes (line : pystr) :
  startswith line (py "---") = true ->
  exists rest, line = (45 :: 45 :: 45 :: rest)%N.
Proof.
  destruct line as [|a [|b [|c rest]]]; simpl; try discriminate;
    rewrite ?andb_false_r; try discriminate.
  intros H. apply andb_prop in H. destruct H as [Ha H].
  apply andb_prop in H. destruct H as [Hb H].
  apply andb_prop in H. destruct H as [Hc _].
  apply N.eqb_eq in Ha, Hb, Hc. subst. eauto.
Qed.

Lemma rstrip_nonspace_cons (c : N) (s : pystr) :
  isspace c = false -> rstrip (c :: s) = c :: rstrip s.
Proof. intros H. simpl. destruct (rstrip s); now rewrite ?H. Qed.

Lemma strip_nonspace_cons (c : N) (s : pystr) :
  isspace c = false -> strip (c :: s) = c :: rstrip s.
Proof.
  intros H. unfold strip. rewrite rstrip_nonspace_cons by assumption.
  simpl. now rewrite H.
Qed.

Lemma divider_title_dashed (line : pystr) :
  strip line = line -> startswith line (py "---") = true ->
  startswith
    (strip (replace (py "Section:") [] (strip (lstrip_chars (py "#") line))))
    (py "---") = true.
Proof.
  intros Hs Hd. destruct (startswith_dashes line Hd) as (rest & E).
  assert (Hl : lstrip_chars (py "#") line = line) by (rewrite E; reflexivity).
  rewrite Hl, Hs, E.
  change (replace (py "Section:") [] (45 :: 45 :: 45 :: rest)%N)
    with (45 :: 45 :: 45 :: replace (py "Section:") [] rest)%N.
  rewrite strip_nonspace_cons by reflexivity.
  rewrite !rstrip_nonspace_cons by reflexivity.
  change (py "---") with [45; 45; 45]%N. cbn [startswith].
  rewrite !N.eqb_refl. now destruct (rstrip _).
Qed.

Lemma parse_text_dashed (text : pystr) (out : list slide) (p : OutlineParser) :
  parse_text new_parser text = Ok (out, p) -> Forall section_title_dashed out.
Proof.
  apply (parse_text_keeps section_title_dashed);
    unfold section_title_dashed; simpl.
  - discriminate.
  - intros raw _ T S _. apply divider_title_dashed.
    + apply strip_idem.
    + now rewrite <- (section_keyword_unreachable (strip raw) T).
  - discriminate.
  - intros raw d items _ _ Ht _. congruence.
  - discriminate.
  - intros raw d _ _ Ht. congruence.
  - intros raw d items _ _ Ht _. congruence.
Qed.

(** ** Which lines start a record *)

Lemma starts_record_nil : starts_record [] = false.
Proof. reflexivity. Qed.

Lemma process_line_free (out : list slide) (raw : pystr) :
  starts_record (strip raw) = false ->
  process_line (out, None) raw = Ok (out, None).
Proof.
  unfold starts_record, starts_heading_record. intros H.
  apply orb_false_iff in H. destruct H as [H B].
  apply orb_false_iff in H. destruct H as [T S].
  now apply free_text_dropped.
Qed.

Lemma process_line_current_stays (st st' : loop_state) (raw : pystr) :
  snd st <> None -> process_line st raw = Ok st' ->
  snd st' <> None /\
  (starts_heading_record (strip raw) = false ->
   List.length (append_current st') = List.length (append_current st)).
Proof.
  destruct st as [out [d|]]; [intros _|intros H; now contradiction H].
  unfold process_line, starts_heading_record. cbn [fst snd].
  destruct (is_empty (strip raw)).
  { intros [= <-]. split; [discriminate|reflexivity]. }
  destruct (is_title_line (strip raw)).
  { intros [= <-]. split; discriminate. }
  destruct (is_section_line (strip raw)).
  { intros [= <-]. split; discriminate. }
  unfold append_current. destruct (is_bullet_line (strip raw)).
  - destruct (slide_type_eqb (s_type d) T_content).
    + intros H. apply bind_Ok in H. destruct H as (items & _ & [= <-]).
      split; [discriminate|]. simpl. now rewrite !length_app.
    + intros [= <-]. split; [discriminate|]. simpl. now rewrite !length_app.
  - destruct (slide_type_eqb (s_type d) T_title).
    + intros H. apply bind_Ok in H. destruct H as (sub & _ & H).
      destruct (is_empty sub); injection H as <-;
        (split; [discriminate|]); simpl; now rewrite !length_app.
    + destruct (slide_type_eqb (s_type d) T_content).
      * intros H. apply bind_Ok in H. destruct H as (items & _ & [= <-]).
        split; [discriminate|]. simpl. now rewrite !length_app.
      * intros [= <-]. split; [discriminate|reflexivity].
Qed.

Lemma process_line_heading (st st' : loop_state) (raw : pystr) :
  starts_heading_record (strip raw) = true -> process_line st raw = Ok st' ->
  snd st' <> None /\
  List.length (append_current st') = S (List.length (append_current st)).
Proof.
  unfold process_line, starts_heading_record.
  destruct (strip raw) as [|c line] eqn:E; [discriminate|]. cbn [is_empty].
  destruct (is_title_line (c :: line)).
  - intros _ [= <-]. split; [discriminate|].
    unfold append_current at 1. cbn [snd fst]. rewrite length_app. simpl. lia.
  - destruct (is_section_line (c :: line)); [|discriminate].
    intros _ [= <-]. split; [discriminate|].
    unfold append_current at 1. cbn [snd fst]. rewrite length_app. simpl. lia.
Qed.

Lemma process_line_first_bullet (out : list slide) (st' : loop_state) (raw : pystr) :
  starts_heading_record (strip raw) = false ->
  starts_record (strip raw) = true ->
  process_line (out, None) raw = Ok st' ->
  snd st' <> None /\ List.length (append_current st') = S (List.length out).
Proof.
  unfold starts_record. intros H B. rewrite H in B. simpl in B.
  unfold starts_heading_record in H. apply orb_false_iff in H.
  destruct H as [T S]. unfold process_line. rewrite T, S, B.
  destruct (strip raw) as [|c line]; [discriminate|]. cbn.
  intros [= <-]. split; [discriminate|].
  unfold append_current. cbn [snd fst]. rewrite length_app. simpl. lia.
Qed.

Lemma for_each_current_stays (lines : list pystr) (st st' : loop_state) :
  snd st <> None -> for_each process_line lines st = Ok st' ->
  snd st' <> None /\
  List.length (append_current st') =
  List.length (append_current st) + heading_count lines.
Proof.
  revert st. induction lines as [|l ls IH]; intros st Hs; simpl.
  - intros [= <-]. split; auto; unfold heading_count; simpl; lia.
  - intros H. apply bind_Ok in H. destruct H as (st1 & Hstep & Hrest).
    unfold heading_count. cbn [filter].
    destruct (starts_heading_record (strip l)) eqn:E.
    + destruct (process_line_heading st st1 l E Hstep) as [Hs1 Hlen].
      destruct (IH st1 Hs1 Hrest) as [Hs' Hlen'].
      split; auto. unfold heading_count in Hlen'. simpl. lia.
    + destruct (process_line_current_stays st st1 l Hs Hstep) as [Hs1 Hlen].
      destruct (IH st1 Hs1 Hrest) as [Hs' Hlen'].
      split; auto. unfold heading_count in Hlen'. rewrite (Hlen E) in Hlen'. lia.
Qed.

Lemma for_each_from_none (lines : list pystr) (out : list slide) (st' : loop_state) :
  for_each process_line lines (out, None) = Ok st' ->
  (st' = (out, None) /\ heading_count lines = 0 /\
   forallb (fun l => negb (starts_record (strip l))) lines = true)
  \/
  (snd st' <> None /\
   forallb (fun l => negb (starts_record (strip l))) lines = false /\
   List.length out + heading_count lines <= List.length (append_current st')
     <= List.length out + heading_count lines + 1 /\
   1 <= List.length (append_current st')).
Proof.
  induction lines as [|l ls IH]; simpl.
  - intros [= <-]. left. auto.
  - intros H. destruct (starts_record (strip l)) eqn:R.
    + right. apply bind_Ok in H. destruct H as (st1 & Hstep & Hrest).
      unfold heading_count. cbn [filter negb andb].
      destruct (starts_heading_record (strip l)) eqn:E.
      * destruct (process_line_heading _ st1 l E Hstep) as [Hs1 Hlen].
        destruct (for_each_current_stays ls st1 st' Hs1 Hrest) as [Hs' Hlen'].
        unfold heading_count in Hlen'. unfold append_current in Hlen at 2.
        simpl in Hlen. simpl. repeat split; auto; lia.
      * destruct (process_line_first_bullet out st1 l E R Hstep) as [Hs1 Hlen].
        destruct (for_each_current_stays ls st1 st' Hs1 Hrest) as [Hs' Hlen'].
        unfold heading_count in Hlen'. repeat split; auto; lia.
    + rewrite (process_line_free out l R) in H. simpl in H.
      assert (E : starts_heading_record (strip l) = false).
      { unfold starts_record in R. now apply orb_false_iff in R. }
      unfold heading_count. cbn [filter negb andb]. rewrite E.
      exact (IH H).
Qed.

Lemma parse_text_fresh_loop (text : pystr) :
  exists st : loop_state,
    for_each process_line (split_on 10 (strip text)) ([], None) = Ok st /\
    parse_text new_parser text =
    Ok (append_current st, mkParser (append_current st)).
Proof.
  destruct (for_each_returns (split_on 10 (strip text)) ([], None) I)
    as (st & Hst).
  exists st. split; [exact Hst|]. unfold parse_text. simpl slides.
  now rewrite Hst.
Qed.

(** *** Bullet lines only *)

Lemma process_line_bullet_branch
  (out : list slide) (d : slide) (items : list pystr) (raw : pystr) :
  reaches_bullet_branch raw = true ->
  s_type d = T_content -> s_content d = Some items ->
  process_line (out, Some d) raw =
  Ok (out, Some (set_content (items ++ [bullet_text (strip raw)]) d)).
Proof.
  unfold reaches_bullet_branch, starts_heading_record. intros H Ht Hc.
  apply andb_prop in H. destruct H as [H B].
  apply negb_true_iff, orb_false_iff in H. destruct H as [T S].
  unfold process_line. rewrite T, S, B.
  destruct (strip raw) as [|c line]; [discriminate|]. cbn [is_empty snd fst].
  rewrite Ht. unfold get_content. rewrite Hc. reflexivity.
Qed.

Lemma process_line_bullet_branch_first (out : list slide) (raw : pystr) :
  reaches_bullet_branch raw = true ->
  process_line (out, None) raw =
  Ok (out, Some (set_content [bullet_text (strip raw)] default_content_slide)).
Proof.
  unfold reaches_bullet_branch, starts_heading_record. intros H.
  apply andb_prop in H. destruct H as [H B].
  apply negb_true_iff, orb_false_iff in H. destruct H as [T S].
  unfold process_line. rewrite T, S, B.
  destruct (strip raw) as [|c line]; [discriminate|]. reflexivity.
Qed.

Lemma for_each_bullet_branch
  (out : list slide) (d : slide) (items : list pystr) (lines : list pystr) :
  forallb reaches_bullet_branch lines = true ->
  s_type d = T_content -> s_content d = Some items ->
  for_each process_line lines (out, Some d) =
  Ok (out,
      Some (set_content
              (items ++ List.map (fun raw => bullet_text (strip raw)) lines) d)).
Proof.
  revert d items. induction lines as [|l ls IH]; intros d items Hl Ht Hc.
  - simpl. rewrite app_nil_r. destruct d. simpl in *. now subst.
  - simpl in Hl. apply andb_prop in Hl. destruct Hl as [Hl Hls].
    cbn [for_each List.map].
    rewrite (process_line_bullet_branch out d items l Hl Ht Hc). cbn [bind].
    rewrite (IH (set_content (items ++ [bullet_text (strip l)]) d)
                (items ++ [bullet_text (strip l)])); auto.
    now rewrite <- app_assoc.
Qed.

(** ** Extra properties: [OutlineParser.parse_text] *)

(** X1.  A fresh parser returns no record exactly when no line of the text
    is a heading, a divider or a bullet line: free text with no record to
    attach to is dropped, and any other line leaves at least one record. *)
Theorem parse_text_empty_iff_no_record_line (text : pystr) :
  exists out : list slide,
    parse_text new_parser text = Ok (out, mkParser out) /\
    match out with [] => true | _ :: _ => false end =
    forallb (fun l => negb (starts_record (strip l))) (split_on 10 (strip text)).
Proof.
  destruct (parse_text_fresh_loop text) as (st & Hloop & Hparse).
  exists (append_current st). split; [exact Hparse|].
  destruct (for_each_from_none _ _ _ Hloop)
    as [(-> & _ & ->) | (_ & -> & _ & Hlen)]; [reflexivity|].
  destruct (append_current st); [simpl in Hlen; lia|reflexivity].
Qed.

(** X2.  The number of records a fresh parser returns is the number of
    heading and divider lines, or one more (the record opened by bullet lines
    that come before every heading and divider). *)
Theorem parse_text_record_count (text : pystr) :
  exists out : list slide,
    parse_text new_parser text = Ok (out, mkParser out) /\
    heading_count (split_on 10 (strip text)) <= List.length out
      <= heading_count (split_on 10 (strip text)) + 1.
Proof.
  destruct (parse_text_fresh_loop text) as (st & Hloop & Hparse).
  exists (append_current st). split; [exact Hparse|].
  destruct (for_each_from_none _ _ _ Hloop)
    as [(-> & -> & _) | (_ & _ & Hlen & _)]; simpl in *; lia.
Qed.

(** X3.  Shape of the records a fresh parser returns: none has a layout or a
    gradient; a title or section record has an empty bullet list, a title
    record has a subtitle key and a section record has none; a content record
    has at least one bullet item. *)
Theorem parsed_records_shape (text : pystr) :
  exists out : list slide,
    parse_text new_parser text = Ok (out, mkParser out) /\
    Forall
      (fun d =>
         s_layout d = None /\ s_gradient d = None /\
         (s_type d <> T_content -> s_content d = Some []) /\
         (s_type d = T_title -> exists v, s_subtitle d = Some v) /\
         (s_type d = T_section -> s_subtitle d = None) /\
         (s_type d = T_content -> exists x xs, s_content d = Some (x :: xs)))
      out.
Proof.
  destruct (parse_text_returns new_parser text) as (out & H).
  exists out. split; [exact H|].
  pose proof (parse_text_shape _ _ _ H) as Hs.
  pose proof (parse_text_good _ _ _ H) as Hg.
  rewrite Forall_forall in *. intros d Hd.
  destruct (Hs d Hd) as (L & G & C & T & S). destruct (Hg d Hd) as [_ N].
  repeat split; auto.
Qed.

(** X4.  Every title, subtitle and bullet item of a record a fresh parser
    returns is free of leading and trailing white space and of line
    breaks. *)
Theorem parsed_text_fields_clean (text : pystr) :
  exists out : list slide,
    parse_text new_parser text = Ok (out, mkParser out) /\
    Forall
      (fun d =>
         clean (s_title d) /\
         (forall v, s_subtitle d = Some v -> clean v) /\
         (forall items, s_content d = Some items -> Forall clean items))
      out.
Proof.
  destruct (parse_text_returns new_parser text) as (out & H).
  exists out. split; [exact H|].
  pose proof (parse_text_tidy _ _ _ H) as Ht.
  pose proof (parse_text_good _ _ _ H) as Hg.
  rewrite Forall_forall in *. intros d Hd.
  destruct (Ht d Hd) as [T S]. destruct (Hg d Hd) as [C _].
  split; [exact T|split; [exact S|exact C]].
Qed.

(** X5.  Every section record a fresh parser returns has a title that
    starts with three dashes: section records come from divider lines only,
    and the dashes of the line are not removed. *)
Theorem parsed_section_titles_keep_dashes (text : pystr) :
  exists out : list slide,
    parse_text new_parser text = Ok (out, mkParser out) /\
    Forall
      (fun d => s_type d = T_section -> startswith (s_title d) (py "---") = true)
      out.
Proof.
  destruct (parse_text_returns new_parser text) as (out & H).
  exists out. split; [exact H|]. exact (parse_text_dashed _ _ _ H).
Qed.

(** X6.  A text made of bullet lines only (lines that reach the bullet
    branch, joined by line breaks) gives exactly one record on a fresh parser:
    the default content record titled "Content", whose items are the lines with
    marker and white space stripped, in order. *)
Theorem bullet_only_outline_one_record (l : pystr) (ls : list pystr) :
  Forall (fun x => ~ In 10%N x) (l :: ls) ->
  forallb reaches_bullet_branch (l :: ls) = true ->
  parse_text new_parser (join nl (l :: ls)) =
  Ok ([set_content (List.map (fun raw => bullet_text (strip raw)) (l :: ls))
         default_content_slide],
      mkParser
        [set_content (List.map (fun raw => bullet_text (strip raw)) (l :: ls))
           default_content_slide]).
Proof.
  intros Hnl Hb. unfold parse_text. rewrite for_each_strip_text.
  rewrite split_on_join by (auto; discriminate).
  simpl in Hb. apply andb_prop in Hb. destruct Hb as [Hl Hls].
  cbn [for_each slides new_parser].
  rewrite (process_line_bullet_branch_first [] l Hl). cbn [bind].
  rewrite (for_each_bullet_branch [] _ [bullet_text (strip l)] ls Hls);
    reflexivity.
Qed.

Lemma bullet_only_outline_one_record_witness :
  parse_text new_parser
    (join nl (py "- a" :: [bullet_glyph ++ py " b"; py "  -c  "])) =
  Ok ([set_content
         (List.map (fun raw => bullet_text (strip raw))
            (py "- a" :: [bullet_glyph ++ py " b"; py "  -c  "]))
         default_content_slide],
      mkParser
        [set_content
           (List.map (fun raw => bullet_text (strip raw))
              (py "- a" :: [bullet_glyph ++ py " b"; py "  -c  "]))
           default_content_slide]).
Proof.
  apply (bullet_only_outline_one_record (py "- a")
           [bullet_glyph ++ py " b"; py "  -c  "]).
  - repeat constructor; vm_compute; intuition discriminate.
  - reflexivity.
Defined.

(** ** Extra properties: validation, lookup and batches *)

(** X7.  After [validate_structure], [self.slides] is empty (and the result
    is [False]) or starts with a title record (and the result is [True]); the
    list is the old one, with at most the default title record put in front.
    A second call returns the same value and changes nothing. *)
Theorem validate_structure_establishes_title (self : OutlineParser) :
  match slides (snd (validate_structure self)) with
  | [] => slides self = [] /\ fst (validate_structure self) = false
  | first :: rest =>
      s_type first = T_title /\ fst (validate_structure self) = true /\
      (first :: rest = slides self \/
       (first = default_title_slide /\ rest = slides self))
  end
  /\ validate_structure (snd (validate_structure self)) = validate_structure self.
Proof.
  destruct self as [[|d rest]]; unfold validate_structure; simpl; [auto|].
  destruct (slide_type_eqb (s_type d) T_title) eqn:E; simpl.
  - rewrite E. simpl. apply slide_type_eqb_eq in E. auto.
  - auto 6.
Qed.

(** X8.  [get_slide] returns [None] exactly for an index below 0 or not below
    the slide count: a negative index does not count from the end. *)
Theorem get_slide_none_iff_out_of_range (self : OutlineParser) (index : Z) :
  get_slide self index = None <->
  (index < 0 \/ get_slide_count self <= index)%Z.
Proof.
  unfold get_slide, get_slide_count.
  destruct (Z.leb_spec 0 index); destruct (Z.ltb_spec index (Z.of_nat (List.length (slides self))));
    simpl; try (split; [lia|reflexivity]).
  rewrite nth_error_None. split; lia.
Qed.

(** X9.  With a batch size of 0 [split_for_agents] raises [ValueError]; with
    a negative batch size it returns no batch at all, whatever the slides. *)
Theorem split_for_agents_nonpositive (self : OutlineParser) (batch_size : Z) :
  (batch_size <= 0)%Z ->
  split_for_agents self batch_size =
  if (batch_size =? 0)%Z then Raise ValueError else Ok [].
Proof.
  intros H. unfold split_for_agents, py_range.
  destruct (Z.eqb_spec batch_size 0); [reflexivity|].
  destruct (Z.ltb_spec 0 batch_size); [lia|].
  destruct (Z.ltb_spec (Z.of_nat (List.length (slides self))) 0); [lia|].
  reflexivity.
Qed.

Lemma split_for_agents_nonpositive_witness :
  split_for_agents (mkParser [e2e_record; default_title_slide]) (-2) =
  if (-2 =? 0)%Z then Raise ValueError else Ok [].
Proof.
  apply (split_for_agents_nonpositive
           (mkParser [e2e_record; default_title_slide]) (-2)).
  lia.
Defined.

(** X10.  For a batch size of at least 1 the number of batches is the slide
    count divided by the batch size, rounded up. *)
Theorem split_for_agents_batch_count (self : OutlineParser) (batch_size : Z) :
  (1 <= batch_size)%Z ->
  exists batches : list batch,
    split_for_agents self batch_size = Ok batches /\
    Z.of_nat (List.length batches) =
    ((get_slide_count self + batch_size - 1) / batch_size)%Z.
Proof.
  intros Hb. rewrite (split_for_agents_chunks self batch_size Hb).
  eexists. split; [reflexivity|].
  rewrite length_map, length_seq. unfold batch_count, get_slide_count.
  set (n := Z.of_nat (List.length (slides self))).
  destruct (Z.ltb_spec 0 n).
  - pose proof (Z.div_pos (n - 1) batch_size ltac:(lia) ltac:(lia)).
    rewrite Z2Nat.id by lia.
    replace (n + batch_size - 1)%Z with (n - 1 + 1 * batch_size)%Z by lia.
    rewrite Z.div_add by lia. reflexivity.
  - assert (n = 0)%Z as -> by lia.
    rewrite Z.div_small by lia. reflexivity.
Qed.

Lemma split_for_agents_batch_count_witness :
  exists batches : list batch,
    split_for_agents (mkParser [e2e_record; default_title_slide; e2e_record]) 2
    = Ok batches /\
    Z.of_nat (List.length batches) =
    ((get_slide_count (mkParser [e2e_record; default_title_slide; e2e_record])
      + 2 - 1) / 2)%Z.
Proof.
  apply (split_for_agents_batch_count
           (mkParser [e2e_record; default_title_slide; e2e_record]) 2).
  lia.
Defined.

(** X11.  For a batch size of at least 1, the slide at position [j] of a
    batch is the slide [get_slide] returns at index [start_index + j]: the
    start index of a batch locates its slides in [self.slides]. *)
Theorem batch_slides_are_get_slide
  (self : OutlineParser) (batch_size : Z) (batches : list batch)
  (k j : nat) (b : batch) (d : slide) :
  (1 <= batch_size)%Z ->
  split_for_agents self batch_size = Ok batches ->
  nth_error batches k = Some b ->
  nth_error (batch_slides b) j = Some d ->
  get_slide self (start_index b + Z.of_nat j) = Some d.
Proof.
  intros Hb Hs Hk Hj.
  rewrite (split_for_agents_chunks self batch_size Hb) in Hs.
  injection Hs as <-. rewrite nth_error_map, nth_error_seq in Hk.
  destruct (Nat.ltb k _); [|discriminate]. injection Hk as <-.
  cbn [batch_slides start_index Nat.add] in *.
  rewrite nth_error_firstn in Hj.
  destruct (Nat.ltb_spec j (Z.to_nat batch_size)); [|discriminate].
  rewrite nth_error_skipn in Hj.
  assert (Hlt : k * Z.to_nat batch_size + j < List.length (slides self)).
  { apply nth_error_Some. congruence. }
  unfold get_slide.
  destruct (Z.leb_spec 0 (Z.of_nat k * batch_size + Z.of_nat j)); [|nia].
  destruct (Z.ltb_spec (Z.of_nat k * batch_size + Z.of_nat j)
              (Z.of_nat (List.length (slides self)))); [|nia].
  simpl. rewrite <- Hj. f_equal. nia.
Qed.

Lemma batch_slides_are_get_slide_witness :
  get_slide (mkParser [e2e_record; default_title_slide; default_content_slide])
    (start_index (mkBatch 1 2 [default_content_slide]) + Z.of_nat 0)
  = Some default_content_slide.
Proof.
  apply (batch_slides_are_get_slide
           (mkParser [e2e_record; default_title_slide; default_content_slide])
           2
           [mkBatch 0 0 [e2e_record; default_title_slide];
            mkBatch 1 2 [default_content_slide]]
           1 0 (mkBatch 1 2 [default_content_slide]) default_content_slide).
  - lia.
  - reflexivity.
  - reflexivity.
  - reflexivity.
Defined.

(** ** Extra properties: [SlidePlanner] *)

Lemma enhance_preserves (d : slide) :
  s_type (enhance d) = s_type d /\ s_title (enhance d) = s_title d /\
  s_subtitle (enhance d) = s_subtitle d /\ s_content (enhance d) = s_content d.
Proof.
  unfold enhance. destruct (slide_type_eqb (s_type d) T_content).
  - destruct (existsb isdigit _ && _);
      [destruct (_ || _)|]; destruct (Nat.ltb 5 _);
      destruct (slide_type_eqb (s_type d) T_title);
      try destruct (slide_type_eqb (s_type d) T_section); simpl; auto.
  - destruct (slide_type_eqb (s_type d) T_title);
      try destruct (slide_type_eqb (s_type d) T_section); simpl; auto.
Qed.

Lemma planned_from_enhance (d : slide) :
  s_layout d = None -> s_gradient d = None -> planned_from d (enhance d).
Proof.
  intros L G. unfold planned_from.
  destruct (s_type d) eqn:T.
  - unfold enhance. rewrite T. simpl. repeat split; auto.
  - unfold enhance. rewrite T. simpl. repeat split; auto.
  - pose proof (enhance_layout d T) as E. revert E.
    unfold enhance. rewrite T. cbn [slide_type_eqb].
    destruct (existsb isdigit _ && _);
      [destruct (_ || _)|]; destruct (Nat.ltb 5 _); simpl; intros E;
      repeat split; auto.
Qed.

(** X12.  [analyze_content_depth] always reports at least one line, never
    more bullets than lines and never fewer than 3 estimated slides; whenever
    it says the outline needs expansion the estimate is exactly 3. *)
Theorem analyze_content_depth_bounds (outline_text : pystr) :
  (1 <= total_lines (analyze_content_depth outline_text))%Z
  /\ (0 <= bullet_count (analyze_content_depth outline_text)
      <= total_lines (analyze_content_depth outline_text))%Z
  /\ (3 <= estimated_slides (analyze_content_depth outline_text))%Z
  /\ (needs_expansion (analyze_content_depth outline_text) = true ->
      estimated_slides (analyze_content_depth outline_text) = 3%Z).
Proof.
  unfold analyze_content_depth. simpl.
  set (lines := split_on 10 (strip outline_text)).
  pose proof (filter_length_le counts_as_bullet lines) as Hle.
  destruct (split_on_cons 10 (strip outline_text)) as (w & ws & Hw).
  fold lines in Hw.
  assert (1 <= List.length lines) by (rewrite Hw; simpl; lia).
  repeat split; try lia.
  intros H10. apply Z.ltb_lt in H10.
  assert (Z.of_nat (List.length (filter counts_as_bullet lines)) / 4 <= 2)%Z.
  { apply Z.lt_succ_r. apply Z.div_lt_upper_bound; lia. }
  lia.
Qed.

(** X13.  The bullet test of [analyze_content_depth] and the one of
    [parse_text] differ exactly on the glyphs: only the planner counts a line
    that starts with U+2022, only the parser takes a line that starts with the
    glyph literal of its source; and every divider line of the parser is
    counted as a bullet by the planner. *)
Theorem planner_and_parser_bullet_tests (l : pystr) :
  counts_as_bullet l && negb (is_bullet_line (strip l)) =
    startswith (strip l) unicode_bullet
  /\ is_bullet_line (strip l) && negb (counts_as_bullet l) =
     startswith (strip l) bullet_glyph
  /\ (is_title_line (strip l) = false -> is_section_line (strip l) = true ->
      counts_as_bullet l = true).
Proof.
  unfold counts_as_bullet, is_bullet_line. repeat split.
  - destruct (strip l) as [|c s]; [reflexivity|].
    assert (X : startswith s [] = true) by now destruct s.
    change (py "-") with [45%N]. unfold unicode_bullet, bullet_glyph.
    cbn [startswith]. rewrite X.
    destruct (N.eqb_spec c 45) as [->|]; [reflexivity|].
    destruct (N.eqb_spec c 8226) as [->|]; reflexivity.
  - destruct (strip l) as [|c s]; [reflexivity|].
    assert (X : startswith s [] = true) by now destruct s.
    change (py "-") with [45%N]. unfold unicode_bullet, bullet_glyph.
    cbn [startswith]. rewrite X.
    destruct (N.eqb_spec c 45) as [->|]; [reflexivity|].
    destruct (N.eqb_spec c 226) as [->|]; [|reflexivity].
    simpl. now rewrite andb_true_r.
  - intros T S. rewrite (section_keyword_unreachable (strip l) T) in S.
    destruct (startswith_dashes _ S) as (rest & ->). reflexivity.
Qed.

(** X14.  [_fallback_plan] never raises and returns one record for each
    record of the parser, in order, with type, title, subtitle and items
    unchanged: a content record gets the layout of the rule order and no
    gradient, a title record the gradient [ultraviolet] and no layout, a
    section record the gradient [coraldawn] and no layout. *)
Theorem fallback_plan_decorates_parsed_records (outline_text : pystr) :
  exists (out plan : list slide),
    parse_text new_parser outline_text = Ok (out, mkParser out) /\
    _fallback_plan outline_text = Ok plan /\
    Forall2 planned_from out plan.
Proof.
  destruct (parse_text_returns new_parser outline_text) as (out & H).
  exists out, (List.map enhance out). unfold _fallback_plan. rewrite H.
  repeat split.
  pose proof (parse_text_shape _ _ _ H) as Hs. clear H.
  induction out as [|d out IH]; simpl; constructor.
  - inversion Hs as [|? ? (L & G & _) _]; subst. now apply planned_from_enhance.
  - apply IH. now inversion Hs.
Qed.

(** X15.  On a text made of bullet lines only, [_fallback_plan] returns one
    content record whose items are the stripped lines and whose layout is the
    one of the rule order on these items; with more than five lines the layout
    is [two_column]. *)
Theorem fallback_plan_bullet_only_outline (l : pystr) (ls : list pystr) :
  Forall (fun x => ~ In 10%N x) (l :: ls) ->
  forallb reaches_bullet_branch (l :: ls) = true ->
  exists d : slide,
    _fallback_plan (join nl (l :: ls)) = Ok [d] /\
    s_type d = T_content /\ s_title d = py "Content" /\
    s_content d = Some (List.map (fun raw => bullet_text (strip raw)) (l :: ls)) /\
    s_layout d =
      Some (layout_rule (List.map (fun raw => bullet_text (strip raw)) (l :: ls))) /\
    (5 < List.length (l :: ls) -> s_layout d = Some two_column).
Proof.
  intros Hnl Hb.
  set (items := List.map (fun raw => bullet_text (strip raw)) (l :: ls)).
  set (d := set_content items default_content_slide).
  assert (Hparse : parse_text new_parser (join nl (l :: ls)) =
                   Ok ([d], mkParser [d])).
  { unfold parse_text. rewrite for_each_strip_text.
    rewrite split_on_join by (auto; discriminate).
    simpl in Hb. apply andb_prop in Hb. destruct Hb as [Hl Hls].
    cbn [for_each slides new_parser].
    rewrite (process_line_bullet_branch_first [] l Hl). cbn [bind].
    rewrite (for_each_bullet_branch [] _ [bullet_text (strip l)] ls Hls);
      reflexivity. }
  exists (enhance d). unfold _fallback_plan. rewrite Hparse.
  assert (Hlay : s_layout (enhance d) = Some (layout_rule items)).
  { apply (enhance_layout d). reflexivity. }
  destruct (enhance_preserves d) as (Et & Ett & _ & Ec).
  split; [reflexivity|]. split; [exact Et|]. split; [exact Ett|].
  split; [exact Ec|]. split; [exact Hlay|].
  intros H5. rewrite Hlay. unfold layout_rule, items. rewrite length_map.
  destruct (Nat.ltb_spec 5 (List.length (l :: ls))); [reflexivity|lia].
Qed.

Lemma fallback_plan_bullet_only_outline_witness :
  exists d : slide,
    _fallback_plan (join nl (py "- a" :: [bullet_glyph ++ py " b"; py "  -c  "]))
    = Ok [d] /\
    s_type d = T_content /\ s_title d = py "Content" /\
    s_content d =
      Some (List.map (fun raw => bullet_text (strip raw))
              (py "- a" :: [bullet_glyph ++ py " b"; py "  -c  "])) /\
    s_layout d =
      Some (layout_rule
              (List.map (fun raw => bullet_text (strip raw))
                 (py "- a" :: [bullet_glyph ++ py " b"; py "  -c  "]))) /\
    (5 < List.length (py "- a" :: [bullet_glyph ++ py " b"; py "  -c  "]) ->
     s_layout d = Some two_column).
Proof.
  apply (fallback_plan_bullet_only_outline (py "- a")
           [bullet_glyph ++ py " b"; py "  -c  "]).
  - repeat constructor; vm_compute; intuition discriminate.
  - reflexivity.
Defined.

(** ** Extra properties: [SlideAgentCoordinator.collect_results] *)

Section StableSort.

Context {A : Type}.

Lemma insert_keyed_perm (x : Z * A) (l : list (Z * A)) :
  Permutation (insert_keyed x l) (x :: l).
Proof.
  induction l as [|y l IH]; simpl; [reflexivity|].
  destruct (fst x <=? fst y)%Z; [reflexivity|].
  rewrite IH. apply perm_swap.
Qed.

Lemma stable_sort_perm (l : list (Z * A)) : Permutation (stable_sort l) l.
Proof.
  induction l as [|x l IH]; simpl; [reflexivity|].
  rewrite insert_keyed_perm. now constructor.
Qed.

Lemma insert_keyed_sorted (x : Z * A) (l : list (Z * A)) :
  Sorted key_le l -> Sorted key_le (insert_keyed x l).
Proof.
  induction l as [|y l IH]; simpl; intros Hs.
  - repeat constructor.
  - destruct (Z.leb_spec (fst x) (fst y)).
    + constructor; [exact Hs|]. constructor. exact H.
    + inversion Hs as [|? ? Hl Hhd]; subst.
      constructor; [now apply IH|].
      destruct l as [|z l]; simpl.
      * constructor. unfold key_le. lia.
      * destruct (Z.leb_spec (fst x) (fst z)).
        -- constructor. unfold key_le. lia.
        -- constructor. now inversion Hhd.
Qed.

Lemma stable_sort_sorted (l : list (Z * A)) : Sorted key_le (stable_sort l).
Proof.
  induction l as [|x l IH]; simpl; [constructor|].
  now apply insert_keyed_sorted.
Qed.

Lemma stable_sort_of_sorted (l : list (Z * A)) :
  Sorted key_le l -> stable_sort l = l.
Proof.
  induction l as [|x l IH]; [reflexivity|].
  intros Hs. inversion Hs as [|? ? Hl Hhd]; subst.
  simpl. rewrite (IH Hl). destruct l as [|y l]; [reflexivity|].
  simpl. inversion Hhd as [|? ? Hxy]; subst. unfold key_le in Hxy.
  destruct (Z.leb_spec (fst x) (fst y)); [reflexivity|lia].
Qed.

End StableSort.

Section CollectResults.

Context {V : Type}.

Lemma sort_keys_present (rs : list (job_result V)) :
  Forall (fun r => r_slide_index r <> None) rs ->
  exists keyed,
    sort_keys rs = Ok keyed /\ List.map snd keyed = rs /\
    Forall keyed_right keyed.
Proof.
  induction rs as [|r rs IH]; intros H.
  - exists []. repeat split. constructor.
  - inversion H as [|? ? Hr Hrs]; subst.
    destruct (IH Hrs) as (keyed & Hk & Hm & Hf).
    simpl. destruct (r_slide_index r) as [k|] eqn:E; [|congruence].
    rewrite Hk. simpl. exists ((k, r) :: keyed). repeat split.
    + simpl. now rewrite Hm.
    + constructor; auto.
Qed.

Lemma sort_keys_missing (rs : list (job_result V)) :
  Exists (fun r => r_slide_index r = None) rs ->
  sort_keys rs = Raise (KeyError "slide_index").
Proof.
  induction 1 as [r rs Hr | r rs Hrs IH]; simpl.
  - now rewrite Hr.
  - destruct (r_slide_index r); [|reflexivity]. now rewrite IH.
Qed.

Lemma sorted_keys_to_index (keyed : list (Z * job_result V)) :
  Forall keyed_right keyed -> Sorted key_le keyed ->
  Sorted index_le (List.map snd keyed).
Proof.
  induction keyed as [|a l IH]; intros Hf Hs; simpl; [constructor|].
  inversion Hf as [|? ? Ha Hl]; subst. inversion Hs as [|? ? Hsl Hhd]; subst.
  constructor; [now apply IH|].
  destruct l as [|b l]; simpl; constructor.
  inversion Hhd as [|? ? Hab]; subst. inversion Hl as [|? ? Hb _]; subst.
  unfold index_le, keyed_right in *. now rewrite Ha, Hb.
Qed.

Lemma sorted_index_to_keys (keyed : list (Z * job_result V)) :
  Forall keyed_right keyed -> Sorted index_le (List.map snd keyed) ->
  Sorted key_le keyed.
Proof.
  induction keyed as [|a l IH]; intros Hf Hs; simpl; [constructor|].
  inversion Hf as [|? ? Ha Hl]; subst. simpl in Hs.
  inversion Hs as [|? ? Hsl Hhd]; subst.
  constructor; [now apply IH|].
  destruct l as [|b l]; simpl; constructor.
  simpl in Hhd. inversion Hhd as [|? ? Hab]; subst.
  inversion Hl as [|? ? Hb _]; subst.
  unfold index_le, keyed_right in *. now rewrite Ha, Hb in Hab.
Qed.

End CollectResults.

(** X16.  When every job result has a slide index, [collect_results] returns
    the generated slides of the results taken in non-decreasing order of slide
    index: the order is a rearrangement of the input, so no generated slide is
    lost or added, and results without a generated slide contribute
    nothing. *)
Theorem collect_results_sorted_permutation
  (V : Type) (job_results : list (job_result V)) :
  Forall (fun r => r_slide_index r <> None) job_results ->
  exists sorted_results : list (job_result V),
    Permutation job_results sorted_results /\
    Sorted index_le sorted_results /\
    collect_results job_results = Ok (flat_map generated sorted_results) /\
    Permutation (flat_map generated job_results)
      (flat_map generated sorted_results).
Proof.
  intros H. destruct (sort_keys_present job_results H) as (keyed & Hk & Hm & Hf).
  exists (List.map snd (stable_sort keyed)).
  assert (Hp : Permutation job_results (List.map snd (stable_sort keyed))).
  { rewrite <- Hm. apply Permutation_map. symmetry. apply stable_sort_perm. }
  repeat split.
  - exact Hp.
  - apply sorted_keys_to_index.
    + eapply Permutation_Forall; [|exact Hf]. symmetry. apply stable_sort_perm.
    + apply stable_sort_sorted.
  - unfold collect_results. now rewrite Hk.
  - now apply Permutation_flat_map.
Qed.

Lemma collect_results_sorted_permutation_witness :
  exists sorted_results : list (job_result slide),
    Permutation sample_results sorted_results /\
    Sorted index_le sorted_results /\
    collect_results sample_results = Ok (flat_map generated sorted_results) /\
    Permutation (flat_map generated sample_results)
      (flat_map generated sorted_results).
Proof.
  apply (collect_results_sorted_permutation slide sample_results).
  repeat constructor; discriminate.
Defined.

(** X17.  When some job result has no slide index, [collect_results] raises
    [KeyError] for the key [slide_index], whether or not that result has a
    generated slide. *)
Theorem collect_results_missing_index
  (V : Type) (job_results : list (job_result V)) :
  Exists (fun r => r_slide_index r = None) job_results ->
  collect_results job_results = Raise (KeyError "slide_index").
Proof.
  intros H. unfold collect_results. now rewrite (sort_keys_missing _ H).
Qed.

Lemma collect_results_missing_index_witness :
  collect_results (sample_results ++ [mkJobResult None None]) =
  Raise (KeyError "slide_index").
Proof.
  apply (collect_results_missing_index slide
           (sample_results ++ [mkJobResult None None])).
  do 3 apply Exists_cons_tl. apply Exists_cons_hd. reflexivity.
Defined.

(** X18.  When the job results already come in non-decreasing order of slide
    index, [collect_results] returns their generated slides in the order
    given: results with equal indices keep their order. *)
Theorem collect_results_of_sorted
  (V : Type) (job_results : list (job_result V)) :
  Forall (fun r => r_slide_index r <> None) job_results ->
  Sorted index_le job_results ->
  collect_results job_results = Ok (flat_map generated job_results).
Proof.
  intros H Hs. destruct (sort_keys_present job_results H) as (keyed & Hk & Hm & Hf).
  unfold collect_results. rewrite Hk. cbn [bind].
  rewrite stable_sort_of_sorted, Hm; [reflexivity|].
  apply sorted_index_to_keys; [exact Hf|]. now rewrite Hm.
Qed.

Lemma collect_results_of_sorted_witness :
  collect_results
    [mkJobResult (Some 0%Z) (Some e2e_record);
     mkJobResult (Some 1%Z) None;
     mkJobResult (Some 1%Z) (Some default_title_slide)] =
  Ok (flat_map generated
        [mkJobResult (Some 0%Z) (Some e2e_record);
         mkJobResult (Some 1%Z) None;
         mkJobResult (Some 1%Z) (Some default_title_slide)]).
Proof.
  apply (collect_results_of_sorted slide
           [mkJobResult (Some 0%Z) (Some e2e_record);
            mkJobResult (Some 1%Z) None;
            mkJobResult (Some 1%Z) (Some default_title_slide)]).
  - repeat constructor; discriminate.
  - repeat constructor; unfold index_le; simpl; lia.
Defined.

(** ** Extra properties: parsing, then validating *)

Lemma heading_line_facts (hashes t : pystr) :
  hashes = py "#" \/ hashes = py "##" ->
  clean t -> t <> [] ->
  strip (hashes ++ py " " ++ t) = hashes ++ py " " ++ t /\
  is_title_line (hashes ++ py " " ++ t) = true /\
  strip (lstrip_chars (py "#") (hashes ++ py " " ++ t)) = t.
Proof.
  intros Hh (L & R & _) Hne. destruct t as [|a s]; [congruence|].
  assert (Hr : rstrip (32 :: a :: s)%N = (32 :: a :: s)%N)
    by (apply rstrip_cons_nonempty; exact R).
  assert (Hs : strip (32 :: a :: s)%N = (a :: s)%N).
  { rewrite strip_space_cons by reflexivity. now apply strip_fixed. }
  destruct Hh as [-> | ->].
  - change (py "#" ++ py " " ++ a :: s) with (35 :: 32 :: a :: s)%N.
    split; [|split].
    + unfold strip. rewrite (rstrip_cons_nonempty 35 32 _ _ Hr). reflexivity.
    + reflexivity.
    + change (lstrip_chars (py "#") (35 :: 32 :: a :: s)%N)
        with (32 :: a :: s)%N.
      exact Hs.
  - change (py "##" ++ py " " ++ a :: s) with (35 :: 35 :: 32 :: a :: s)%N.
    split; [|split].
    + unfold strip.
      rewrite (rstrip_cons_nonempty 35 35 _ _ (rstrip_cons_nonempty 35 32 _ _ Hr)).
      reflexivity.
    + reflexivity.
    + change (lstrip_chars (py "#") (35 :: 35 :: 32 :: a :: s)%N)
        with (32 :: a :: s)%N.
      exact Hs.
Qed.

(** X19.  A heading line [# t] or [## t] alone, for a non-empty text [t]
    without white space at its ends, gives one title record whose title is
    exactly [t], with an empty subtitle and no items, whatever [t] holds. *)
Theorem heading_title_round_trip (hashes t : pystr) :
  hashes = py "#" \/ hashes = py "##" ->
  clean t -> t <> [] ->
  parse_text new_parser (hashes ++ py " " ++ t) =
  Ok ([title_slide t], mkParser [title_slide t]).
Proof.
  intros Hh Hc Hne.
  destruct (heading_line_facts hashes t Hh Hc Hne) as (Hs & Ht & Htitle).
  unfold parse_text. rewrite for_each_strip_text.
  rewrite split_on_no_sep_id.
  - cbn [for_each slides new_parser].
    rewrite (heading_is_title _ _ (eq_ind_r (fun x => is_title_line x = true) Ht Hs)).
    cbn [bind for_each]. rewrite Hs, Htitle. reflexivity.
  - destruct Hc as (_ & _ & Hnl). intros Hin.
    destruct Hh as [-> | ->]; simpl in Hin; intuition discriminate.
Qed.

Lemma heading_title_round_trip_witness :
  parse_text new_parser (py "##" ++ py " " ++ py "Section: Overview") =
  Ok ([title_slide (py "Section: Overview")],
      mkParser [title_slide (py "Section: Overview")]).
Proof.
  apply (heading_title_round_trip (py "##") (py "Section: Overview")).
  - right. reflexivity.
  - repeat split. vm_compute. intuition discriminate.
  - discriminate.
Defined.

(** X20.  Parsing with a fresh parser and then validating, as the callers
    do: the validation fails exactly when no line of the text is a heading, a
    divider or a bullet line; otherwise the slides are the parsed records, with
    at most the default title record in front, and the first one is a title
    record. *)
Theorem parse_then_validate (text : pystr) :
  exists out : list slide,
    parse_text new_parser text = Ok (out, mkParser out) /\
    fst (validate_structure (mkParser out)) =
      negb (forallb (fun l => negb (starts_record (strip l)))
              (split_on 10 (strip text))) /\
    (slides (snd (validate_structure (mkParser out))) = out \/
     slides (snd (validate_structure (mkParser out))) = default_title_slide :: out) /\
    match slides (snd (validate_structure (mkParser out))) with
    | [] => out = []
    | first :: _ => s_type first = T_title
    end.
Proof.
  destruct (parse_text_fresh_loop text) as (st & Hloop & Hparse).
  exists (append_current st). split; [exact Hparse|].
  assert (Hempty : match append_current st with [] => true | _ :: _ => false end =
                   forallb (fun l => negb (starts_record (strip l)))
                     (split_on 10 (strip text))).
  { destruct (for_each_from_none _ _ _ Hloop)
      as [(-> & _ & ->) | (_ & -> & _ & Hlen)]; [reflexivity|].
    destruct (append_current st); [simpl in Hlen; lia|reflexivity]. }
  rewrite <- Hempty. unfold validate_structure. simpl slides.
  destruct (append_current st) as [|d rest]; simpl; [auto|].
  destruct (slide_type_eqb (s_type d) T_title) eqn:E; simpl.
  - apply slide_type_eqb_eq in E. auto.
  - auto.
Qed.
